(** * Spreadsheet.py: range resolution and the batched-request session

    A shallow embedding of the class [Spreadsheet] of [Spreadsheet.py]
    (a thin client of the Google Sheets API v4) and the properties of its
    range parser [toGridRange] and of its request accumulator
    ([prepare_*], [runPrepared], [addSheet]).

    Modelling choices, all taken from the source:
    - Python values that travel as JSON are the inductive [json]; a Python
      [dict] with string keys is a [gmap string json], whose equality is
      extensional like Python's [==] on dicts; [None] is [JNull].
    - A Python [str] is a Rocq [string]: ASCII text, one character per
      code point.
    - Python [int] is [Z].
    - A raised exception is the [Raise] case of [outcome]; methods that
      mutate [self] are computations in a state-and-exception monad.
    - The remote service is a parameter: a transition function on an
      abstract remote state that answers each outbound call with a JSON
      value or with an exception.  Every outbound call is also appended
      to a log, so that "no call is issued" can be stated.
    - [debugMode] only pretty-prints responses and is left out.
    - Payloads the methods only pass on (formats, values, titles) are
      arbitrary [json]; arguments the methods compute with are typed by
      that use: column and row indices and sizes are [Z], the format
      matrix of [prepare_setCellsFormats] is a list of lists.  Numbers
      that are not integers never enter a computation of the modelled
      methods and have no constructor. *)

From Stdlib Require Import ZArith Ascii String Lia DecimalString DecimalZ.
From stdpp Require Import gmap strings list fin_maps.

#[local] Set Warnings "-register-all".
#[local] Open Scope string_scope.
#[local] Open Scope Z_scope.

(** ** Values and exceptions *)

Inductive json : Type :=
| JNull
| JBool (b : bool)
| JInt (z : Z)
| JStr (s : string)
| JList (l : list json)
| JDict (d : gmap string json).

(** [x is None] *)
Definition is_None (v : json) : bool :=
  match v with JNull => true | _ => false end.

(** The exceptions the modelled code can raise.  The first two are the
    module's own classes; the others are Python built-ins; [RemoteError]
    stands for whatever the transport raises (e.g. [HttpError]). *)
Inductive exn : Type :=
| SpreadsheetNotSetError
| SheetNotSetError
| IndexError
| ValueError
| KeyError
| TypeError
| RemoteError (msg : string).

Inductive outcome (A : Type) : Type :=
| Return (a : A)
| Raise (e : exn).
Arguments Return {A} a.
Arguments Raise {A} e.

(** Sequencing of pure computations that may raise. *)
Definition obind {A B} (o : outcome A) (k : A -> outcome B) : outcome B :=
  match o with
  | Return a => k a
  | Raise e => Raise e
  end.

Notation "'let?' x ':=' m 'in' k" := (obind m (fun x => k))
  (at level 10, x pattern, m at level 100, k at level 200).

(** ** State-and-exception monad *)

Definition M (S A : Type) : Type := S -> S * outcome A.

Definition ret {S A} (a : A) : M S A := fun s => (s, Return a).

Definition raise {S A} (e : exn) : M S A := fun s => (s, Raise e).

Definition bind {S A B} (m : M S A) (k : A -> M S B) : M S B :=
  fun s => match m s with
           | (s', Return a) => k a s'
           | (s', Raise e) => (s', Raise e)
           end.

Definition get {S} : M S S := fun s => (s, Return s).

Definition modify {S} (f : S -> S) : M S unit := fun s => (f s, Return tt).

(** [try: body finally: handler]: the handler runs on both exits; the
    exception of the body, if any, propagates afterwards (a handler that
    raises replaces it). *)
Definition try_finally {S A} (body : M S A) (handler : M S unit) : M S A :=
  fun s => match body s with
           | (s', r) => match handler s' with
                        | (s'', Return _) => (s'', r)
                        | (s'', Raise e) => (s'', Raise e)
                        end
           end.

Definition of_outcome {S A} (o : outcome A) : M S A := fun s => (s, o).

(** Runs a computation on the first component of a pair of states. *)
Definition lift_self {S W A} (m : M S A) : M (S * W) A :=
  fun sw => match m (fst sw) with (s', r) => ((s', snd sw), r) end.

Notation "'let!' x ':=' m 'in' k" := (bind m (fun x => k))
  (at level 10, x pattern, m at level 100, k at level 200).
Notation "'do!' m 'in' k" := (bind m (fun _ => k))
  (at level 10, m at level 100, k at level 200).

(** ** Python string and subscript primitives *)

(** [s.split(sep)] for a one-character separator: never the empty list. *)
Fixpoint split (sep : ascii) (s : string) : list string :=
  match s with
  | EmptyString => [EmptyString]
  | String c s' =>
      if Ascii.eqb c sep then EmptyString :: split sep s'
      else match split sep s' with
           | t :: ts => String c t :: ts
           | [] => [String c EmptyString]
           end
  end.

(** [ord(c)] *)
Definition ord (c : ascii) : Z := Z.of_N (N_of_ascii c).

(** [x in range(lo, hi)] for an integer [x] *)
Definition in_range (lo hi x : Z) : bool := (lo <=? x) && (x <? hi).

Definition is_space (c : ascii) : bool :=
  let n := ord c in
  in_range 9 14 n || in_range 28 33 n.

Definition is_digit (c : ascii) : bool := in_range 48 58 (ord c).

Fixpoint lstrip (s : string) : string :=
  match s with
  | String c s' => if is_space c then lstrip s' else s
  | EmptyString => EmptyString
  end.

Fixpoint rev_string (acc s : string) : string :=
  match s with
  | EmptyString => acc
  | String c s' => rev_string (String c acc) s'
  end.

(** [s.strip()] *)
Definition strip (s : string) : string :=
  rev_string EmptyString (lstrip (rev_string EmptyString (lstrip s))).

(** Decimal digits with single underscores allowed between digits;
    [prev] tells whether the previous character was a digit. *)
Fixpoint digits_value (acc : Z) (prev : bool) (s : string) : option Z :=
  match s with
  | EmptyString => if prev then Some acc else None
  | String c s' =>
      if is_digit c then digits_value (10 * acc + (ord c - 48)) true s'
      else if Ascii.eqb c "_" then
             if prev then digits_value acc false s' else None
      else None
  end.

(** [int(s)] on ASCII text: surrounding white space, an optional sign,
    then decimal digits; [ValueError] otherwise. *)
Definition py_int (s : string) : outcome Z :=
  let t := strip s in
  let '(neg, body) :=
    match t with
    | String "+" r => (false, r)
    | String "-" r => (true, r)
    | _ => (false, t)
    end in
  match digits_value 0 false body with
  | Some n => Return (if neg then - n else n)
  | None => Raise ValueError
  end.

(** [s[0]] and [s[1:]] on a string *)
Definition str_first (s : string) : outcome ascii :=
  match s with
  | String c _ => Return c
  | EmptyString => Raise IndexError
  end.

Definition str_tail (s : string) : string :=
  match s with
  | String _ s' => s'
  | EmptyString => EmptyString
  end.

(** [seq[i]] for a Python sequence of length [n]: negative indices count
    from the end. *)
Definition norm_index (n : nat) (i : Z) : option nat :=
  let j := if i <? 0 then i + Z.of_nat n else i in
  if (0 <=? j) && (j <? Z.of_nat n) then Some (Z.to_nat j) else None.

(** [v[k]] with a string key [k] *)
Definition getitem_key (v : json) (k : string) : outcome json :=
  match v with
  | JDict d => match d !! k with
               | Some x => Return x
               | None => Raise KeyError
               end
  | _ => Raise TypeError
  end.

(** [v[i]] with an integer index [i] *)
Definition getitem_idx (v : json) (i : Z) : outcome json :=
  match v with
  | JList l => match norm_index (List.length l) i with
               | Some n => match l !! n with
                           | Some x => Return x
                           | None => Raise IndexError
                           end
               | None => Raise IndexError
               end
  | JStr s => match norm_index (String.length s) i with
              | Some n => match String.get n s with
                          | Some c => Return (JStr (String c EmptyString))
                          | None => Raise IndexError
                          end
              | None => Raise IndexError
              end
  | JDict _ => Raise KeyError
  | _ => Raise TypeError
  end.

(** ** The session object *)

(** The attributes of [Spreadsheet] that the modelled methods read or
    write.  [spreadsheetId], [sheetId] and [sheetTitle] hold what the
    remote service returned, or [JNull] while nothing is bound. *)
Record Spreadsheet : Type := mkSpreadsheet {
  spreadsheetId : json;
  sheetId : json;
  sheetTitle : json;
  requests : list json;
  valueRanges : list json
}.

(** [Spreadsheet.__init__] *)
Definition init : Spreadsheet :=
  {| spreadsheetId := JNull; sheetId := JNull; sheetTitle := JNull;
     requests := []; valueRanges := [] |}.

Definition set_requests (q : list json) (s : Spreadsheet) : Spreadsheet :=
  {| spreadsheetId := spreadsheetId s; sheetId := sheetId s;
     sheetTitle := sheetTitle s; requests := q;
     valueRanges := valueRanges s |}.

Definition set_valueRanges (q : list json) (s : Spreadsheet) : Spreadsheet :=
  {| spreadsheetId := spreadsheetId s; sheetId := sheetId s;
     sheetTitle := sheetTitle s; requests := requests s;
     valueRanges := q |}.

Definition set_sheetId (v : json) (s : Spreadsheet) : Spreadsheet :=
  {| spreadsheetId := spreadsheetId s; sheetId := v;
     sheetTitle := sheetTitle s; requests := requests s;
     valueRanges := valueRanges s |}.

Definition set_sheetTitle (v : json) (s : Spreadsheet) : Spreadsheet :=
  {| spreadsheetId := spreadsheetId s; sheetId := sheetId s;
     sheetTitle := v; requests := requests s;
     valueRanges := valueRanges s |}.

(** ** toGridRange *)

(** The argument of [toGridRange]: a [str] or an already built dict. *)
Inductive cells_range : Type :=
| RangeStr (s : string)
| RangeDict (d : gmap string json).

(** [startCell, endCell = cellsRange.split(":")[0:2]]: unpacking needs
    exactly two items. *)
Definition split_cells (s : string) : outcome (string * string) :=
  match take 2 (split ":" s) with
  | [a; b] => Return (a, b)
  | _ => Raise ValueError
  end.

(** [ord(c) in range(ord('A'), ord('Z') + 1)] *)
Definition in_rangeAZ (c : ascii) : bool :=
  in_range (ord "A") (ord "Z" + 1) (ord c).

(** The string branch of [toGridRange], statement by statement.  The
    result is the dict built from [{}]. *)
Definition parse_range (s : string) : outcome (gmap string json) :=
  let? (startCell, endCell) := split_cells s in
  let cellsRange : gmap string json := ∅ in
  let? c0 := str_first startCell in
  let '(cellsRange, startCell) :=
    if in_rangeAZ c0
    then (<["startColumnIndex" := JInt (ord c0 - ord "A")]> cellsRange,
          str_tail startCell)
    else (cellsRange, startCell) in
  let? c1 := str_first endCell in
  let '(cellsRange, endCell) :=
    if in_rangeAZ c1
    then (<["endColumnIndex" := JInt (ord c1 - ord "A" + 1)]> cellsRange,
          str_tail endCell)
    else (cellsRange, endCell) in
  let? cellsRange :=
    if (0 <? String.length startCell)%nat
    then let? n := py_int startCell in
         Return (<["startRowIndex" := JInt (n - 1)]> cellsRange)
    else Return cellsRange in
  let? cellsRange :=
    if (0 <? String.length endCell)%nat
    then let? n := py_int endCell in
         Return (<["endRowIndex" := JInt n]> cellsRange)
    else Return cellsRange in
  Return cellsRange.

(** [Spreadsheet.toGridRange]: reads [self.sheetId], never writes
    [self].  For a dict argument Python updates the caller's dict in place
    and returns that same object; the returned value is what is modelled. *)
Definition toGridRange (self : Spreadsheet) (cellsRange : cells_range)
  : outcome (gmap string json) :=
  if is_None (sheetId self) then Raise SheetNotSetError
  else
    let? cellsRange :=
      match cellsRange with
      | RangeStr s => parse_range s
      | RangeDict d => Return d
      end in
    Return (<["sheetId" := sheetId self]> cellsRange).

(** ** Queuing operations *)

(** A dict literal [{k1: v1, k2: v2, ...}]: keys are set in order. *)
Definition py_dict (items : list (string * json)) : json :=
  JDict (foldl (fun d kv => <[kv.1 := kv.2]> d) ∅ items).

(** [self.requests.append(x)] and [self.valueRanges.append(x)] *)
Definition append_request (x : json) : M Spreadsheet unit :=
  modify (fun self => set_requests (requests self ++ [x]) self).

Definition append_valueRange (x : json) : M Spreadsheet unit :=
  modify (fun self => set_valueRanges (valueRanges self ++ [x]) self).

Definition prepare_addSheet (sheetTitle rows cols : json) : M Spreadsheet unit :=
  append_request
    (py_dict [("addSheet", py_dict [("properties", py_dict [
       ("title", sheetTitle);
       ("gridProperties", py_dict [("rowCount", rows); ("columnCount", cols)])])])]).

Definition prepare_setDimensionPixelSize (dimension : string)
    (startIndex endIndex pixelSize : Z) : M Spreadsheet unit :=
  let! self := get in
  if is_None (sheetId self) then raise SheetNotSetError
  else append_request
    (py_dict [("updateDimensionProperties", py_dict [
       ("range", py_dict [("sheetId", sheetId self);
                          ("dimension", JStr dimension);
                          ("startIndex", JInt startIndex);
                          ("endIndex", JInt endIndex)]);
       ("properties", py_dict [("pixelSize", JInt pixelSize)]);
       ("fields", JStr "pixelSize")])]).

Definition prepare_setColumnsWidth (startCol endCol width : Z) : M Spreadsheet unit :=
  prepare_setDimensionPixelSize "COLUMNS" startCol (endCol + 1) width.

Definition prepare_setColumnWidth (col width : Z) : M Spreadsheet unit :=
  prepare_setColumnsWidth col col width.

Definition prepare_setRowsHeight (startRow endRow height : Z) : M Spreadsheet unit :=
  prepare_setDimensionPixelSize "ROWS" startRow (endRow + 1) height.

Definition prepare_setRowHeight (row height : Z) : M Spreadsheet unit :=
  prepare_setRowsHeight row row height.

(** [self.sheetTitle + "!" + cellsRange]: [+] on a non-string title is a
    [TypeError]. *)
Definition prepare_setValues (cellsRange : string) (values majorDimension : json)
  : M Spreadsheet unit :=
  let! self := get in
  if is_None (sheetTitle self) then raise SheetNotSetError
  else
    match sheetTitle self with
    | JStr title =>
        append_valueRange
          (py_dict [("range", JStr (title ++ "!" ++ cellsRange));
                    ("majorDimension", majorDimension);
                    ("values", values)])
    | _ => raise TypeError
    end.

Definition prepare_mergeCells (cellsRange : cells_range) (mergeType : json)
  : M Spreadsheet unit :=
  let! self := get in
  let! range := of_outcome (toGridRange self cellsRange) in
  append_request
    (py_dict [("mergeCells", py_dict [("range", JDict range);
                                      ("mergeType", mergeType)])]).

Definition prepare_setCellsFormat (cellsRange : cells_range) (formatJSON fields : json)
  : M Spreadsheet unit :=
  let! self := get in
  let! range := of_outcome (toGridRange self cellsRange) in
  append_request
    (py_dict [("repeatCell", py_dict [
       ("range", JDict range);
       ("cell", py_dict [("userEnteredFormat", formatJSON)]);
       ("fields", fields)])]).

Definition prepare_setCellsFormats (cellsRange : cells_range)
    (formatsJSON : list (list json)) (fields : json) : M Spreadsheet unit :=
  let! self := get in
  let! range := of_outcome (toGridRange self cellsRange) in
  append_request
    (py_dict [("updateCells", py_dict [
       ("range", JDict range);
       ("rows", JList (map (fun rowFormats =>
                  py_dict [("values", JList (map (fun cellFormat =>
                     py_dict [("userEnteredFormat", cellFormat)]) rowFormats))])
                formatsJSON));
       ("fields", fields)])]).

(** ** The remote service and the flush *)

(** The two outbound calls of [runPrepared], with their arguments. *)
Inductive call : Type :=
| BatchUpdate (spreadsheetId : json) (body : json)
| ValuesBatchUpdate (spreadsheetId : json) (body : json).

(** What lies outside the session object: the state of the remote service
    and the log of the calls issued so far, oldest first. *)
Record world (R : Type) : Type := mkWorld {
  remote : R;
  calls : list call
}.
Arguments mkWorld {R} remote calls.
Arguments remote {R} w.
Arguments calls {R} w.

Section Flush.
Context {R : Type}.
(** [request.execute()]: the service answers a call with a JSON value or
    with an exception, and may change its own state. *)
Variable execute : call -> R -> R * outcome json.

Definition remote_call (c : call) : M (Spreadsheet * world R) json :=
  fun sw =>
    let '(r', o) := execute c (remote (snd sw)) in
    ((fst sw, {| remote := r'; calls := calls (snd sw) ++ [c] |}), o).

Definition get_self : M (Spreadsheet * world R) Spreadsheet :=
  lift_self get.

(** [Spreadsheet.runPrepared] *)
Definition runPrepared (valueInputOption : json)
  : M (Spreadsheet * world R) (json * json) :=
  let! self := get_self in
  if is_None (spreadsheetId self) then raise SpreadsheetNotSetError
  else
    let upd1Res := py_dict [("replies", JList [])] in
    let upd2Res := py_dict [("responses", JList [])] in
    let! (upd1Res, upd2Res) :=
      try_finally
        (let! self := get_self in
         let! upd1Res :=
           if (0 <? List.length (requests self))%nat
           then remote_call
                  (BatchUpdate (spreadsheetId self)
                     (py_dict [("requests", JList (requests self))]))
           else ret upd1Res in
         let! self := get_self in
         let! upd2Res :=
           if (0 <? List.length (valueRanges self))%nat
           then remote_call
                  (ValuesBatchUpdate (spreadsheetId self)
                     (py_dict [("valueInputOption", valueInputOption);
                               ("data", JList (valueRanges self))]))
           else ret upd2Res in
         ret (upd1Res, upd2Res))
        (lift_self (do! modify (set_requests []) in
                    modify (set_valueRanges []))) in
    let! replies := of_outcome (getitem_key upd1Res "replies") in
    let! responses := of_outcome (getitem_key upd2Res "responses") in
    ret (replies, responses).

(** [Spreadsheet.addSheet] *)
Definition addSheet (sheetTitle rows cols : json)
  : M (Spreadsheet * world R) json :=
  let! self := get_self in
  if is_None (spreadsheetId self) then raise SpreadsheetNotSetError
  else
    do! lift_self (prepare_addSheet sheetTitle rows cols) in
    let! res := runPrepared (JStr "USER_ENTERED") in
    let! first := of_outcome (getitem_idx (fst res) 0) in
    let! added := of_outcome (getitem_key first "addSheet") in
    let! addedSheet := of_outcome (getitem_key added "properties") in
    let! sid := of_outcome (getitem_key addedSheet "sheetId") in
    do! lift_self (modify (set_sheetId sid)) in
    let! title := of_outcome (getitem_key addedSheet "title") in
    do! lift_self (modify (set_sheetTitle title)) in
    let! self := get_self in
    ret (sheetId self).
End Flush.

(** ** Range strings of the form <letter?><digits?>:<letter?><digits?> *)

Fixpoint all_digits (s : string) : bool :=
  match s with
  | EmptyString => true
  | String c s' => is_digit c && all_digits s'
  end.

(** The number a string of decimal digits denotes, most significant
    digit first. *)
Fixpoint decimal_from (acc : Z) (s : string) : Z :=
  match s with
  | EmptyString => acc
  | String c s' => decimal_from (10 * acc + (ord c - 48)) s'
  end.

Definition decimal (s : string) : Z := decimal_from 0 s.

(** One side of a range: an optional column letter, then the row digits. *)
Definition cell_token (col : option ascii) (row : string) : string :=
  match col with
  | Some c => String c row
  | None => row
  end.

Definition col_ok (col : option ascii) : bool :=
  match col with
  | Some c => in_rangeAZ c
  | None => true
  end.

Definition is_empty (s : string) : bool :=
  match s with EmptyString => true | _ => false end.

(** What may follow the second token: nothing, or a further separator and
    anything after it. *)
Definition rest_ok (rest : string) : bool :=
  match rest with
  | EmptyString => true
  | String c _ => Ascii.eqb c ":"
  end.

Definition range_string (c1 : option ascii) (r1 : string)
    (c2 : option ascii) (r2 : string) (rest : string) : string :=
  cell_token c1 r1 ++ ":" ++ cell_token c2 r2 ++ rest.

Definition opt_set (k : string) (v : option Z) (d : gmap string json)
  : gmap string json :=
  match v with
  | Some z => <[k := JInt z]> d
  | None => d
  end.

(** The dict with exactly the given bounds. *)
Definition grid_bounds (startCol endCol startRow endRow : option Z)
  : gmap string json :=
  opt_set "endRowIndex" endRow
    (opt_set "startRowIndex" startRow
       (opt_set "endColumnIndex" endCol
          (opt_set "startColumnIndex" startCol ∅))).

(** The bounds the tokens of a range string stand for: 0-based inclusive
    start, exclusive end. *)
Definition start_col (c : option ascii) : option Z :=
  (fun l => ord l - ord "A") <$> c.
Definition end_col (c : option ascii) : option Z :=
  (fun l => ord l - ord "A" + 1) <$> c.
Definition start_row (r : string) : option Z :=
  if is_empty r then None else Some (decimal r - 1).
Definition end_row (r : string) : option Z :=
  if is_empty r then None else Some (decimal r).

(** ** A sample remote service

    It answers a structural batch with one reply per request, in order:
    an [addSheet] request is answered with the properties of the new
    sheet, which gets the next free sheet identifier; any other request
    with an empty reply.  A value batch is answered with one empty
    response per write.  Its state is the next free sheet identifier. *)

Definition reply_to (next : Z) (request : json) : Z * json :=
  match request with
  | JDict d =>
      match d !! "addSheet" with
      | Some (JDict a) =>
          match a !! "properties" with
          | Some (JDict p) =>
              (next + 1,
               py_dict [("addSheet", py_dict [("properties",
                  JDict (<["sheetId" := JInt next]> p))])])
          | _ => (next, py_dict [])
          end
      | _ => (next, py_dict [])
      end
  | _ => (next, py_dict [])
  end.

Fixpoint replies_to (next : Z) (reqs : list json) : Z * list json :=
  match reqs with
  | [] => (next, [])
  | q :: qs =>
      let '(next1, r) := reply_to next q in
      let '(next2, rs) := replies_to next1 qs in
      (next2, r :: rs)
  end.

Definition sample_service (c : call) (next : Z) : Z * outcome json :=
  match c with
  | BatchUpdate _ (JDict body) =>
      match body !! "requests" with
      | Some (JList reqs) =>
          let '(next', rs) := replies_to next reqs in
          (next', Return (py_dict [("replies", JList rs)]))
      | _ => (next, Raise (RemoteError "400"))
      end
  | ValuesBatchUpdate _ (JDict body) =>
      match body !! "data" with
      | Some (JList writes) =>
          (next, Return (py_dict [("responses", JList (map (fun _ => py_dict []) writes))]))
      | _ => (next, Raise (RemoteError "400"))
      end
  | _ => (next, Raise (RemoteError "400"))
  end.

(** A service that rejects every call. *)
Definition failing_service (c : call) (st : unit) : unit * outcome json :=
  (st, Raise (RemoteError "403")).

(** A session bound to spreadsheet "doc", sheet 7 titled "Sheet1". *)
Definition bound7 : Spreadsheet :=
  {| spreadsheetId := JStr "doc"; sheetId := JInt 7; sheetTitle := JStr "Sheet1";
     requests := []; valueRanges := [] |}.

Definition world0 : world Z := {| remote := 100; calls := [] |}.

(** ** Vocabulary of the statements *)

(** No separator inside a token. *)
Fixpoint no_colon (s : string) : bool :=
  match s with
  | EmptyString => true
  | String c s' => negb (Ascii.eqb c ":") && no_colon s'
  end.

(** A partial range built by the caller, carrying a stale identifier and
    a key of its own. *)
Definition partial_range : gmap string json :=
  <["note" := JStr "header"]>
    (<["sheetId" := JInt 1]> (<["startRowIndex" := JInt 3]> ∅)).

(** The invariant of a grid range, one dimension at a time: when both
    bounds are present, start <= end. *)
Definition ordered_on (startKey endKey : string) (r : gmap string json) : bool :=
  match r !! startKey, r !! endKey with
  | Some (JInt a), Some (JInt b) => a <=? b
  | _, _ => true
  end.

Definition rows_ordered : gmap string json -> bool :=
  ordered_on "startRowIndex" "endRowIndex".

Definition cols_ordered : gmap string json -> bool :=
  ordered_on "startColumnIndex" "endColumnIndex".

(** What the dimension operations queue. *)
Definition dimension_request (sheet : json) (dimension : string)
    (startIndex endIndex pixelSize : Z) : json :=
  py_dict [("updateDimensionProperties", py_dict [
     ("range", py_dict [("sheetId", sheet);
                        ("dimension", JStr dimension);
                        ("startIndex", JInt startIndex);
                        ("endIndex", JInt endIndex)]);
     ("properties", py_dict [("pixelSize", JInt pixelSize)]);
     ("fields", JStr "pixelSize")])].

(** The [finally] block of [runPrepared]. *)
Definition clear_queues (self : Spreadsheet) : Spreadsheet :=
  set_valueRanges [] (set_requests [] self).

(** A bound session with one structural request and one value write
    queued. *)
Definition both_queued : Spreadsheet :=
  fst (prepare_setValues "A1:A1" (JList [JList [JStr "x"]]) (JStr "ROWS")
         (fst (prepare_setColumnWidth 0 500 bound7))).

(** An unbound session with one structural request queued. *)
Definition unbound_queued : Spreadsheet :=
  fst (prepare_addSheet (JStr "Report") (JInt 1000) (JInt 26) init).

(** The operations that append to the structural queue. *)
Inductive structural_op : Type :=
| AddSheetOp (sheetTitle rows cols : json)
| SetDimensionPixelSizeOp (dimension : string) (startIndex endIndex pixelSize : Z)
| SetColumnsWidthOp (startCol endCol width : Z)
| SetColumnWidthOp (col width : Z)
| SetRowsHeightOp (startRow endRow height : Z)
| SetRowHeightOp (row height : Z)
| MergeCellsOp (cellsRange : cells_range) (mergeType : json)
| SetCellsFormatOp (cellsRange : cells_range) (formatJSON fields : json)
| SetCellsFormatsOp (cellsRange : cells_range) (formatsJSON : list (list json))
    (fields : json).

(** Runs the method an operation names. *)
Definition prepare (op : structural_op) : M Spreadsheet unit :=
  match op with
  | AddSheetOp t r c => prepare_addSheet t r c
  | SetDimensionPixelSizeOp d a b p => prepare_setDimensionPixelSize d a b p
  | SetColumnsWidthOp a b w => prepare_setColumnsWidth a b w
  | SetColumnWidthOp c w => prepare_setColumnWidth c w
  | SetRowsHeightOp a b h => prepare_setRowsHeight a b h
  | SetRowHeightOp r h => prepare_setRowHeight r h
  | MergeCellsOp cr m => prepare_mergeCells cr m
  | SetCellsFormatOp cr f fields => prepare_setCellsFormat cr f fields
  | SetCellsFormatsOp cr fs fields => prepare_setCellsFormats cr fs fields
  end.

(** Every operation but [prepare_addSheet] reads [self.sheetId]. *)
Definition needs_sheet (op : structural_op) : bool :=
  match op with
  | AddSheetOp _ _ _ => false
  | _ => true
  end.

(** The range argument, for the operations that resolve one. *)
Definition range_of (op : structural_op) : option cells_range :=
  match op with
  | MergeCellsOp cr _ | SetCellsFormatOp cr _ _ | SetCellsFormatsOp cr _ _ => Some cr
  | _ => None
  end.

(** The range argument, if any, goes through [toGridRange]. *)
Definition resolves (self : Spreadsheet) (op : structural_op) : Prop :=
  match range_of op with
  | Some cr => exists d, toGridRange self cr = Return d
  | None => True
  end.

(** The session after [self.requests.append(x)]. *)
Definition queued (self : Spreadsheet) (x : json) : Spreadsheet :=
  set_requests (requests self ++ [x]) self.

(** The request [prepare_addSheet] builds. *)
Definition addSheet_request (sheetTitle rows cols : json) : json :=
  py_dict [("addSheet", py_dict [("properties", py_dict [
     ("title", sheetTitle);
     ("gridProperties", py_dict [("rowCount", rows); ("columnCount", cols)])])])].

(** Sheet 7 of "doc" is current and one structural request is already
    queued: a merge in the first session, another new sheet in the
    second. *)
Definition merge_queued : Spreadsheet :=
  fst (prepare_mergeCells (RangeStr "A1:B1") (JStr "MERGE_ALL") bound7).

Definition sheet_queued : Spreadsheet :=
  fst (prepare_addSheet (JStr "Old") (JInt 10) (JInt 5) bound7).

(** The structural call [addSheet] issues from a session bound to "doc". *)
Definition batch_of (self : Spreadsheet) (sheetTitle : string) : call :=
  BatchUpdate (JStr "doc")
    (py_dict [("requests",
       JList (requests self ++
              [addSheet_request (JStr sheetTitle) (JInt 1000) (JInt 26)]))]).

(** ** Binding, sharing and the sheet URL

    The methods that talk to the service outside the two batch calls.
    They have their own calls, their own answers and one more attribute,
    [self.driveService], which the record [Spreadsheet] above does not
    carry: it sits in [env] beside the remote state. *)

Definition set_spreadsheetId (v : json) (s : Spreadsheet) : Spreadsheet :=
  {| spreadsheetId := v; sheetId := sheetId s;
     sheetTitle := sheetTitle s; requests := requests s;
     valueRanges := valueRanges s |}.

(** [spreadsheets().create(body = ...)], [spreadsheets().get(...)],
    [apiclient.discovery.build('drive', 'v3', ...)] and
    [permissions().create(fileId = ..., body = ..., fields = ...)]. *)
Inductive admin_call : Type :=
| CreateSpreadsheet (body : json)
| GetSpreadsheet (spreadsheetId : json)
| BuildDrive
| CreatePermission (fileId body : json) (fields : string).

(** [driveService] is [true] once [self.driveService] holds a service
    object, [false] while it is [None]. *)
Record env (R : Type) : Type := mkEnv {
  driveService : bool;
  service : R;
  issued : list admin_call
}.
Arguments mkEnv {R} driveService service issued.
Arguments driveService {R} e.
Arguments service {R} e.
Arguments issued {R} e.

Definition set_driveService {R} (b : bool) (e : env R) : env R :=
  {| driveService := b; service := service e; issued := issued e |}.

(** The three assignments that end both [create] and
    [setSpreadsheetById]; [spreadsheet] is the answer of the service. *)
Definition adopt (spreadsheet : json) : M Spreadsheet unit :=
  let! newId := of_outcome (getitem_key spreadsheet "spreadsheetId") in
  do! modify (set_spreadsheetId newId) in
  let! sheets := of_outcome (getitem_key spreadsheet "sheets") in
  let! first := of_outcome (getitem_idx sheets 0) in
  let! properties := of_outcome (getitem_key first "properties") in
  let! newSheetId := of_outcome (getitem_key properties "sheetId") in
  do! modify (set_sheetId newSheetId) in
  let! sheets := of_outcome (getitem_key spreadsheet "sheets") in
  let! first := of_outcome (getitem_idx sheets 0) in
  let! properties := of_outcome (getitem_key first "properties") in
  let! newTitle := of_outcome (getitem_key properties "title") in
  modify (set_sheetTitle newTitle).

(** The body [create] sends. *)
Definition create_body (title sheetTitle rows cols locale timeZone : json) : json :=
  py_dict [
    ("properties", py_dict [("title", title); ("locale", locale);
                            ("timeZone", timeZone)]);
    ("sheets", JList [py_dict [("properties", py_dict [
       ("sheetType", JStr "GRID");
       ("sheetId", JInt 0);
       ("title", sheetTitle);
       ("gridProperties", py_dict [("rowCount", rows); ("columnCount", cols)])])]])].

Section Admin.
Context {R : Type}.
(** The service answers each of these calls with a JSON value or with an
    exception; the value answered to [BuildDrive] stands for the service
    object and is not looked at. *)
Variable perform : admin_call -> R -> R * outcome json.

Definition admin (c : admin_call) : M (Spreadsheet * env R) json :=
  fun se =>
    let '(r', o) := perform c (service (snd se)) in
    ((fst se,
      {| driveService := driveService (snd se); service := r';
         issued := issued (snd se) ++ [c] |}), o).

Definition lift_env {A} (m : M (env R) A) : M (Spreadsheet * env R) A :=
  fun se => match m (snd se) with (e', r) => ((fst se, e'), r) end.

(** [Spreadsheet.create] *)
Definition create (title sheetTitle rows cols locale timeZone : json)
  : M (Spreadsheet * env R) unit :=
  let! spreadsheet :=
    admin (CreateSpreadsheet
             (create_body title sheetTitle rows cols locale timeZone)) in
  lift_self (adopt spreadsheet).

(** [Spreadsheet.setSpreadsheetById] *)
Definition setSpreadsheetById (spreadsheetId : json)
  : M (Spreadsheet * env R) unit :=
  let! spreadsheet := admin (GetSpreadsheet spreadsheetId) in
  lift_self (adopt spreadsheet).

(** [Spreadsheet.share] *)
Definition share (shareRequestBody : json) : M (Spreadsheet * env R) unit :=
  let! self := lift_self get in
  if is_None (spreadsheetId self) then raise SpreadsheetNotSetError
  else
    let! e := lift_env get in
    do! (if driveService e then ret tt
         else do! admin BuildDrive in
              lift_env (modify (set_driveService true))) in
    do! admin (CreatePermission (spreadsheetId self) shareRequestBody "id") in
    ret tt.

Definition shareWithEmailForReading (email : json) : M (Spreadsheet * env R) unit :=
  share (py_dict [("type", JStr "user"); ("role", JStr "reader");
                  ("emailAddress", email)]).

Definition shareWithEmailForWriting (email : json) : M (Spreadsheet * env R) unit :=
  share (py_dict [("type", JStr "user"); ("role", JStr "writer");
                  ("emailAddress", email)]).

Definition shareWithAnybodyForReading : M (Spreadsheet * env R) unit :=
  share (py_dict [("type", JStr "anyone"); ("role", JStr "reader")]).

Definition shareWithAnybodyForWriting : M (Spreadsheet * env R) unit :=
  share (py_dict [("type", JStr "anyone"); ("role", JStr "writer")]).
End Admin.

(** [str(n)] for an integer. *)
Definition str_of_int (n : Z) : string :=
  NilZero.string_of_int (Z.to_int n).

Section SheetURL.
(** [str] of a list or of a dict prints the items in the order they were
    inserted, which a [gmap] does not record: it is left as a parameter. *)
Variable repr_container : json -> string.

(** [str(v)] *)
Definition py_str (v : json) : string :=
  match v with
  | JNull => "None"
  | JBool true => "True"
  | JBool false => "False"
  | JInt n => str_of_int n
  | JStr s => s
  | JList _ | JDict _ => repr_container v
  end.

(** [Spreadsheet.getSheetURL]: [+] between a string and a value that is
    not a string is a [TypeError]. *)
Definition getSheetURL (self : Spreadsheet) : outcome string :=
  if is_None (spreadsheetId self) then Raise SpreadsheetNotSetError
  else if is_None (sheetId self) then Raise SheetNotSetError
  else
    match spreadsheetId self with
    | JStr id =>
        Return ("https://docs.google.com/spreadsheets/d/" ++ id
                ++ "/edit#gid=" ++ py_str (sheetId self))
    | _ => Raise TypeError
    end.
End SheetURL.

(** A service for these calls: a spreadsheet that is created or fetched
    has one sheet, numbered 0 and titled "Sheet1"; the state counts the
    spreadsheets created. *)
Definition sample_admin (c : admin_call) (n : Z) : Z * outcome json :=
  match c with
  | CreateSpreadsheet _ =>
      (n + 1,
       Return (py_dict [("spreadsheetId", JStr "created");
                        ("sheets", JList [py_dict [("properties",
                           py_dict [("sheetId", JInt 0);
                                    ("title", JStr "Sheet1")])]])]))
  | GetSpreadsheet id =>
      (n,
       Return (py_dict [("spreadsheetId", id);
                        ("sheets", JList [py_dict [("properties",
                           py_dict [("sheetId", JInt 0);
                                    ("title", JStr "Sheet1")])]])]))
  | BuildDrive => (n, Return JNull)
  | CreatePermission _ _ _ => (n, Return (py_dict [("id", JStr "perm")]))
  end.

Definition env0 : env Z := {| driveService := false; service := 0; issued := [] |}.


(** ** Vocabulary of the further properties *)

(** The two calls [runPrepared] builds from a session. *)
Definition structural_call (self : Spreadsheet) : call :=
  BatchUpdate (spreadsheetId self)
    (py_dict [("requests", JList (requests self))]).

Definition values_call (valueInputOption : json) (self : Spreadsheet) : call :=
  ValuesBatchUpdate (spreadsheetId self)
    (py_dict [("valueInputOption", valueInputOption);
              ("data", JList (valueRanges self))]).

(** The [spreadsheetId] argument of a call. *)
Definition call_target (c : call) : json :=
  match c with
  | BatchUpdate id _ | ValuesBatchUpdate id _ => id
  end.

(** A reply to an [addSheet] request, carrying the properties [p] of the
    new sheet. *)
Definition addSheet_reply (p : gmap string json) : json :=
  py_dict [("addSheet", py_dict [("properties", JDict p)])].

(** Sheet 7 of "doc" with one value write queued and nothing else. *)
Definition values_queued : Spreadsheet :=
  fst (prepare_setValues "A1:A1" (JList [JList [JStr "x"]]) (JStr "ROWS") bound7).


Definition unit_world : world unit := {| remote := tt; calls := [] |}.


(** The properties the sample service answers for a sheet "New" of 1000
    rows and 26 columns numbered 100. *)
Definition new_sheet_properties : gmap string json :=
  <["sheetId" := JInt 100]>
    (<["gridProperties" := py_dict [("rowCount", JInt 1000); ("columnCount", JInt 26)]]>
       (<["title" := JStr "New"]> ∅)).

(** [v[k1][k2]...] *)
Fixpoint getitem_path (v : json) (keys : list string) : outcome json :=
  match keys with
  | [] => Return v
  | k :: keys' => let? x := getitem_key v k in getitem_path x keys'
  end.


(** The cells of one row of an [updateCells] request. *)
Definition row_cells (row : json) : option (list json) :=
  match getitem_key row "values" with
  | Return (JList cells) => Some cells
  | _ => None
  end.

(** An answer describing a spreadsheet with no sheet. *)
Definition sheetless_admin (c : admin_call) (st : unit) : unit * outcome json :=
  (st, Return (py_dict [("spreadsheetId", JStr "empty"); ("sheets", JList [])])).

(** A service on which the Drive API cannot be built. *)
Definition driveless_admin (c : admin_call) (st : unit) : unit * outcome json :=
  match c with
  | BuildDrive => (st, Raise (RemoteError "drive"))
  | _ => (st, Return (py_dict []))
  end.

Definition unit_env : env unit := {| driveService := false; service := tt; issued := [] |}.

(** A service that knows no spreadsheet. *)
Definition rejecting_admin (c : admin_call) (st : unit) : unit * outcome json :=
  (st, Raise (RemoteError "404")).

(** ** Facts about characters and the string primitives *)

Lemma digit_not_space c : is_digit c = true -> is_space c = false.
Proof.
  unfold is_digit, is_space, in_range. intros H.
  destruct (9 <=? ord c) eqn:?, (ord c <? 14) eqn:?, (28 <=? ord c) eqn:?,
    (ord c <? 33) eqn:?, (48 <=? ord c) eqn:?, (ord c <? 58) eqn:?;
    simpl in *; try reflexivity; try discriminate; lia.
Qed.

Lemma digit_not_AZ c : is_digit c = true -> in_rangeAZ c = false.
Proof.
  unfold is_digit, in_rangeAZ, in_range. intros H.
  change (ord "A") with 65. change (ord "Z" + 1) with 91.
  destruct (65 <=? ord c) eqn:?, (ord c <? 91) eqn:?,
    (48 <=? ord c) eqn:?, (ord c <? 58) eqn:?;
    simpl in *; try reflexivity; try discriminate; lia.
Qed.

Lemma digit_not_char c d :
  is_digit c = true -> is_digit d = false -> Ascii.eqb c d = false.
Proof.
  intros Hc Hd. destruct (Ascii.eqb c d) eqn:E; [|done].
  apply Ascii.eqb_eq in E. congruence.
Qed.

Lemma AZ_not_colon c : in_rangeAZ c = true -> Ascii.eqb c ":" = false.
Proof.
  intros Hc. destruct (Ascii.eqb c ":") eqn:E; [|done].
  apply Ascii.eqb_eq in E. subst. discriminate.
Qed.

Lemma append_cons c (s t : string) : String c s ++ t = String c (s ++ t).
Proof. reflexivity. Qed.

Lemma append_empty_r (s : string) : s ++ "" = s.
Proof. induction s as [|c s IH]; [done|]. by rewrite append_cons, IH. Qed.

Lemma rev_string_twice s : forall a b,
  rev_string a (rev_string b s) = rev_string (s ++ a) b.
Proof.
  induction s as [|c s IH]; intros a b; [done|].
  rewrite append_cons. simpl. by rewrite IH.
Qed.

Lemma all_digits_rev s : forall acc,
  all_digits acc = true -> all_digits s = true ->
  all_digits (rev_string acc s) = true.
Proof.
  induction s as [|c s IH]; intros acc Ha Hs; simpl in *; [done|].
  apply andb_prop in Hs as [Hc Hs]. apply IH; [|done].
  simpl. by rewrite Hc, Ha.
Qed.

Lemma lstrip_digits s : all_digits s = true -> lstrip s = s.
Proof.
  destruct s as [|c s]; simpl; [done|]. intros H.
  apply andb_prop in H as [Hc _]. by rewrite (digit_not_space c Hc).
Qed.

Lemma strip_digits s : all_digits s = true -> strip s = s.
Proof.
  intros H. unfold strip. rewrite (lstrip_digits s H).
  rewrite lstrip_digits by (by apply all_digits_rev).
  rewrite rev_string_twice. simpl. apply append_empty_r.
Qed.

Lemma digits_value_digits s : forall acc,
  all_digits s = true -> digits_value acc true s = Some (decimal_from acc s).
Proof.
  induction s as [|c s IH]; intros acc H; simpl in *; [done|].
  apply andb_prop in H as [Hc Hs]. rewrite Hc. by apply IH.
Qed.

(** [int] on a non-empty string of decimal digits is its decimal value. *)
Lemma py_int_digits s :
  all_digits s = true -> is_empty s = false -> py_int s = Return (decimal s).
Proof.
  intros H Hne. unfold py_int. rewrite (strip_digits s H).
  destruct s as [|c s]; [discriminate|].
  simpl in H. apply andb_prop in H as [Hc Hs].
  assert (Hbody : (match String c s with
                   | String "+" r => (false, r)
                   | String "-" r => (true, r)
                   | _ => (false, String c s)
                   end) = (false, String c s)).
  { pose proof (digit_not_char c "+" Hc eq_refl) as Hp.
    pose proof (digit_not_char c "-" Hc eq_refl) as Hm.
    destruct c as [[] [] [] [] [] [] [] []]; try reflexivity; discriminate. }
  rewrite Hbody. simpl. rewrite Hc.
  by rewrite (digits_value_digits s _ Hs).
Qed.

(** ** Splitting a range string *)

Lemma split_not_nil sep s : exists t ts, split sep s = t :: ts.
Proof.
  induction s as [|c s (t & ts & IH)]; simpl; [by eauto|].
  destruct (Ascii.eqb c sep); [by eauto|]. rewrite IH. by eauto.
Qed.

Lemma split_before_colon t u :
  no_colon t = true -> split ":" (t ++ String ":" u) = t :: split ":" u.
Proof.
  induction t as [|c t IH]; intros H; [done|].
  simpl in H. apply andb_prop in H as [Hc Ht].
  rewrite append_cons. simpl.
  destruct (Ascii.eqb c ":"); [done|]. by rewrite (IH Ht).
Qed.

Lemma split_no_colon t : no_colon t = true -> split ":" t = [t].
Proof.
  induction t as [|c t IH]; intros H; [done|].
  simpl in H. apply andb_prop in H as [Hc Ht]. simpl.
  destruct (Ascii.eqb c ":"); [done|]. by rewrite (IH Ht).
Qed.

Lemma digits_no_colon r : all_digits r = true -> no_colon r = true.
Proof.
  induction r as [|c r IH]; simpl; [done|]. intros H.
  apply andb_prop in H as [Hc Hr].
  by rewrite (digit_not_char c ":" Hc eq_refl), (IH Hr).
Qed.

Lemma cell_token_no_colon col row :
  col_ok col = true -> all_digits row = true ->
  no_colon (cell_token col row) = true.
Proof.
  intros Hc Hr. destruct col as [l|]; simpl in *.
  - by rewrite (AZ_not_colon l Hc), (digits_no_colon row Hr).
  - by apply digits_no_colon.
Qed.

Lemma split_cells_form t1 t2 rest :
  no_colon t1 = true -> no_colon t2 = true -> rest_ok rest = true ->
  split_cells (t1 ++ ":" ++ t2 ++ rest) = Return (t1, t2).
Proof.
  intros H1 H2 Hr. unfold split_cells.
  change (":" ++ t2 ++ rest) with (String ":" (t2 ++ rest)).
  rewrite (split_before_colon t1 _ H1).
  destruct rest as [|c u].
  - rewrite append_empty_r. by rewrite (split_no_colon t2 H2).
  - simpl in Hr. apply Ascii.eqb_eq in Hr. subst c.
    rewrite (split_before_colon t2 _ H2).
    by destruct (split_not_nil ":" u) as (x & xs & ->).
Qed.

(** ** What the string branch computes *)

Lemma length_pos_nonempty s : (0 <? String.length s)%nat = negb (is_empty s).
Proof. by destruct s. Qed.

(** On a string of the form, both tokens non-empty, the parser returns
    exactly the bounds the tokens stand for. *)
Lemma parse_range_form c1 r1 c2 r2 rest :
  col_ok c1 = true -> all_digits r1 = true ->
  col_ok c2 = true -> all_digits r2 = true ->
  rest_ok rest = true ->
  is_empty (cell_token c1 r1) = false ->
  is_empty (cell_token c2 r2) = false ->
  parse_range (range_string c1 r1 c2 r2 rest) =
    Return (grid_bounds (start_col c1) (end_col c2) (start_row r1) (end_row r2)).
Proof.
  intros Hc1 Hr1 Hc2 Hr2 Hrest Hn1 Hn2.
  unfold parse_range, range_string.
  rewrite split_cells_form
    by (done || by apply cell_token_no_colon).
  cbn [obind].
  assert (Hrow : forall r (d : gmap string json) (k : string) (f : Z -> Z),
    all_digits r = true ->
    (if (0 <? String.length r)%nat
     then let? n := py_int r in Return (<[k := JInt (f n)]> d)
     else Return d)
    = Return (opt_set k (if is_empty r then None else Some (f (decimal r))) d)).
  { intros r d k f Hr. rewrite length_pos_nonempty.
    destruct (is_empty r) eqn:E; [done|]. simpl.
    by rewrite (py_int_digits r Hr E). }
  assert (Hstart : exists l,
    str_first (cell_token c1 r1) = Return l /\
    (if in_rangeAZ l
     then (<["startColumnIndex" := JInt (ord l - ord "A")]> (∅ : gmap string json),
           str_tail (cell_token c1 r1))
     else (∅, cell_token c1 r1))
    = (opt_set "startColumnIndex" (start_col c1) ∅, r1)).
  { destruct c1 as [l|]; simpl in *.
    - exists l. by rewrite Hc1.
    - destruct r1 as [|d r1]; [done|]. exists d. simpl in Hr1.
      apply andb_prop in Hr1 as [Hd _]. by rewrite (digit_not_AZ d Hd). }
  destruct Hstart as (l1 & -> & Hs). cbn [obind]. rewrite Hs. clear Hs.
  assert (Hend : exists l,
    str_first (cell_token c2 r2) = Return l /\
    forall d : gmap string json,
    (if in_rangeAZ l
     then (<["endColumnIndex" := JInt (ord l - ord "A" + 1)]> d,
           str_tail (cell_token c2 r2))
     else (d, cell_token c2 r2))
    = (opt_set "endColumnIndex" (end_col c2) d, r2)).
  { destruct c2 as [l|]; simpl in *.
    - exists l. by rewrite Hc2.
    - destruct r2 as [|d r2]; [done|]. exists d. simpl in Hr2.
      apply andb_prop in Hr2 as [Hd _]. by rewrite (digit_not_AZ d Hd). }
  destruct Hend as (l2 & -> & He). cbn [obind]. rewrite He. clear He.
  rewrite (Hrow r1 _ "startRowIndex" (fun n => n - 1) Hr1). cbn [obind].
  rewrite (Hrow r2 _ "endRowIndex" (fun n => n) Hr2). cbn [obind].
  unfold grid_bounds, start_row, end_row.
  by destruct (is_empty r1), (is_empty r2).
Qed.

(** A token with no character at all stops the parser at [token[0]]. *)
Lemma parse_range_empty_token s a b :
  split_cells s = Return (a, b) ->
  is_empty a || is_empty b = true ->
  parse_range s = Raise IndexError.
Proof.
  intros Hs He. unfold parse_range. rewrite Hs. cbn [obind].
  destruct a as [|c a]; [done|]. simpl in He. cbn [str_first obind].
  destruct b as [|c' b]; [|done].
  by destruct (in_rangeAZ c).
Qed.

(** ** Reading the bounds of a result *)

Lemma lookup_opt_set k v (d : gmap string json) k' :
  opt_set k v d !! k' =
    if decide (k = k') then
      match v with Some z => Some (JInt z) | None => d !! k' end
    else d !! k'.
Proof.
  unfold opt_set. destruct v as [z|].
  - by rewrite lookup_insert.
  - by case_decide.
Qed.

Ltac bounds_lookup :=
  unfold grid_bounds;
  repeat (rewrite lookup_opt_set; case_decide; try discriminate);
  try rewrite lookup_empty; try done.

Lemma grid_bounds_startCol a b c d :
  grid_bounds a b c d !! "startColumnIndex" = JInt <$> a.
Proof. destruct a, b, c, d; bounds_lookup. Qed.

Lemma grid_bounds_endCol a b c d :
  grid_bounds a b c d !! "endColumnIndex" = JInt <$> b.
Proof. destruct a, b, c, d; bounds_lookup. Qed.

Lemma grid_bounds_startRow a b c d :
  grid_bounds a b c d !! "startRowIndex" = JInt <$> c.
Proof. destruct a, b, c, d; bounds_lookup. Qed.

Lemma grid_bounds_endRow a b c d :
  grid_bounds a b c d !! "endRowIndex" = JInt <$> d.
Proof. destruct a, b, c, d; bounds_lookup. Qed.

Lemma grid_bounds_other a b c d k :
  k ∉ ["startColumnIndex"; "endColumnIndex"; "startRowIndex"; "endRowIndex"] ->
  grid_bounds a b c d !! k = None.
Proof.
  intros Hk. unfold grid_bounds.
  repeat (rewrite lookup_opt_set; case_decide;
          [subst k; exfalso; apply Hk; set_solver|]).
  apply lookup_empty.
Qed.

(** The examples of the source's comment and of [testGridRangeForStr]. *)
Example toGridRange_A3_B4 :
  toGridRange bound7 (RangeStr "A3:B4") =
    Return (<["sheetId" := JInt 7]>
              (grid_bounds (Some 0) (Some 2) (Some 2) (Some 4))).
Proof. vm_compute. reflexivity. Qed.

Example toGridRange_A5_B :
  toGridRange bound7 (RangeStr "A5:B") =
    Return (<["sheetId" := JInt 7]>
              (grid_bounds (Some 0) (Some 2) (Some 4) None)).
Proof. vm_compute. reflexivity. Qed.

Example toGridRange_A_B :
  toGridRange bound7 (RangeStr "A:B") =
    Return (<["sheetId" := JInt 7]>
              (grid_bounds (Some 0) (Some 2) None None)).
Proof. vm_compute. reflexivity. Qed.

Example toGridRange_third_token :
  toGridRange bound7 (RangeStr "A3:B4:C9") =
  toGridRange bound7 (RangeStr "A3:B4").
Proof. vm_compute. reflexivity. Qed.

(** ** Properties of toGridRange *)

(** C1.  On every range string of the form
    <letter?><digits?>:<letter?><digits?>, followed or not by further
    tokens, and with a sheet bound, [toGridRange] returns the dict with
    exactly the bounds of the tokens present (start letter position, end
    letter position + 1, start row - 1, end row) and the sheet
    identifier, provided both tokens have at least one character; when
    the start or the end token is empty it raises [IndexError] and
    returns nothing. *)
Theorem toGridRange_form self c1 r1 c2 r2 rest :
  is_None (sheetId self) = false ->
  col_ok c1 = true -> all_digits r1 = true ->
  col_ok c2 = true -> all_digits r2 = true ->
  rest_ok rest = true ->
  toGridRange self (RangeStr (range_string c1 r1 c2 r2 rest)) =
    if is_empty (cell_token c1 r1) || is_empty (cell_token c2 r2)
    then Raise IndexError
    else Return (<["sheetId" := sheetId self]>
                   (grid_bounds (start_col c1) (end_col c2)
                                (start_row r1) (end_row r2))).
Proof.
  intros Hs Hc1 Hr1 Hc2 Hr2 Hrest. unfold toGridRange. rewrite Hs.
  destruct (is_empty (cell_token c1 r1) || is_empty (cell_token c2 r2)) eqn:E.
  - rewrite (parse_range_empty_token _ (cell_token c1 r1) (cell_token c2 r2));
      [done| |done].
    unfold range_string.
    apply split_cells_form; (done || by apply cell_token_no_colon).
  - apply orb_false_elim in E as [E1 E2].
    by rewrite parse_range_form.
Qed.

(** At "A3:" the claimed result would be the start bounds of "A3" with
    the end left open; the code raises instead. *)
Lemma toGridRange_form_witness :
  toGridRange bound7 (RangeStr "A3:") = Raise IndexError.
Proof.
  exact (toGridRange_form bound7 (Some "A"%char) "3" None "" ""
           eq_refl eq_refl eq_refl eq_refl eq_refl eq_refl).
Defined.

(** C5.  With a sheet bound, a range string whose start token or end
    token is empty (as in "A3:" and ":B4") makes [toGridRange] raise
    [IndexError]: no result is returned, so no bound is left open. *)
Theorem toGridRange_empty_token self s a b :
  is_None (sheetId self) = false ->
  split_cells s = Return (a, b) ->
  is_empty a || is_empty b = true ->
  toGridRange self (RangeStr s) = Raise IndexError.
Proof.
  intros Hs Hsplit He. unfold toGridRange. rewrite Hs.
  by rewrite (parse_range_empty_token s a b Hsplit He).
Qed.

Lemma toGridRange_empty_token_witness :
  toGridRange bound7 (RangeStr "A3:") = Raise IndexError /\
  toGridRange bound7 (RangeStr ":B4") = Raise IndexError.
Proof.
  split.
  - exact (toGridRange_empty_token bound7 "A3:" "A3" "" eq_refl eq_refl eq_refl).
  - exact (toGridRange_empty_token bound7 ":B4" "" "B4" eq_refl eq_refl eq_refl).
Defined.

(** C4.  For every argument, string or dict: with no sheet identifier
    bound [toGridRange] raises [SheetNotSetError]; with one bound it never
    raises that error, every result it returns has [sheetId] equal to the
    bound identifier, and a dict argument always yields a result. *)
Theorem toGridRange_sheetId self cellsRange :
  (is_None (sheetId self) = true ->
   toGridRange self cellsRange = Raise SheetNotSetError) /\
  (is_None (sheetId self) = false ->
   toGridRange self cellsRange <> Raise SheetNotSetError /\
   (forall r, toGridRange self cellsRange = Return r ->
              r !! "sheetId" = Some (sheetId self)) /\
   (forall d, cellsRange = RangeDict d ->
              exists r, toGridRange self cellsRange = Return r)).
Proof.
  unfold toGridRange. split; intros Hs; rewrite Hs; [done|].
  assert (Hparse : forall s, parse_range s <> Raise SheetNotSetError).
  { intros s. unfold parse_range, split_cells, str_first, py_int.
    repeat (match goal with
            | |- context [match ?x with _ => _ end] => destruct x
            end; cbn [obind]; try discriminate). }
  split; [|split].
  - destruct cellsRange as [s|d]; [|done].
    specialize (Hparse s). by destruct (parse_range s).
  - intros r Hr.
    destruct (match cellsRange with
              | RangeStr s => parse_range s
              | RangeDict d => Return d
              end) as [d|e]; [|done].
    cbn [obind] in Hr. injection Hr as <-. apply lookup_insert_eq.
  - intros d ->. by eauto.
Qed.

Lemma toGridRange_sheetId_witness :
  toGridRange init (RangeStr "A3:B4") = Raise SheetNotSetError /\
  toGridRange init (RangeDict ∅) = Raise SheetNotSetError /\
  (forall r, toGridRange bound7 (RangeStr "A3:B4") = Return r ->
             r !! "sheetId" = Some (JInt 7)) /\
  exists r, toGridRange bound7 (RangeDict ∅) = Return r.
Proof.
  split; [|split; [|split]].
  - exact (proj1 (toGridRange_sheetId init (RangeStr "A3:B4")) eq_refl).
  - exact (proj1 (toGridRange_sheetId init (RangeDict ∅)) eq_refl).
  - exact (proj1 (proj2 (proj2 (toGridRange_sheetId bound7 (RangeStr "A3:B4"))
                          eq_refl))).
  - exact (proj2 (proj2 (proj2 (toGridRange_sheetId bound7 (RangeDict ∅))
                          eq_refl)) ∅ eq_refl).
Defined.

(** C8.  With a sheet bound, a dict argument comes back with [sheetId]
    set to the bound identifier and every other key as it was. *)
Theorem toGridRange_dict self d :
  is_None (sheetId self) = false ->
  exists r, toGridRange self (RangeDict d) = Return r /\
            r = <["sheetId" := sheetId self]> d /\
            r !! "sheetId" = Some (sheetId self) /\
            forall k, k <> "sheetId" -> r !! k = d !! k.
Proof.
  intros Hs. exists (<["sheetId" := sheetId self]> d).
  unfold toGridRange. rewrite Hs. cbn [obind].
  split; [done|]. split; [done|]. split; [apply lookup_insert_eq|].
  intros k Hk. by rewrite lookup_insert_ne.
Qed.

Lemma toGridRange_dict_witness :
  exists r, toGridRange bound7 (RangeDict partial_range) = Return r /\
            r = <["sheetId" := JInt 7]> partial_range /\
            r !! "sheetId" = Some (JInt 7) /\
            forall k, k <> "sheetId" -> r !! k = partial_range !! k.
Proof. exact (toGridRange_dict bound7 partial_range eq_refl). Defined.

(** ** Ordering of the bounds *)

(** "C5:A1" is of the accepted form; its result has both bounds in both
    dimensions (rows 4 and 1, columns 2 and 1) and start > end in each. *)
Lemma toGridRange_reversed_range :
  exists r, toGridRange bound7 (RangeStr "C5:A1") = Return r /\
            r !! "startRowIndex" = Some (JInt 4) /\
            r !! "endRowIndex" = Some (JInt 1) /\
            r !! "startColumnIndex" = Some (JInt 2) /\
            r !! "endColumnIndex" = Some (JInt 1) /\
            rows_ordered r = false /\ cols_ordered r = false.
Proof.
  exists (<["sheetId" := JInt 7]>
            (grid_bounds (Some 2) (Some 1) (Some 4) (Some 1))).
  split; [vm_compute; reflexivity|].
  unfold rows_ordered, cols_ordered, ordered_on.
  rewrite !lookup_insert_ne by done.
  rewrite grid_bounds_startCol, grid_bounds_endCol,
    grid_bounds_startRow, grid_bounds_endRow.
  repeat split.
Qed.

(** C6, amended.  [toGridRange] does not compare the two tokens.  On a
    range string of the form with both tokens non-empty it returns a
    result in which the column bounds, when both are present, satisfy
    start <= end exactly when the start letter is at most one position
    after the end letter, and the row bounds, when both are present,
    satisfy start <= end exactly when the start row number is at most the
    end row number plus one. *)
Theorem toGridRange_order self c1 r1 c2 r2 rest :
  is_None (sheetId self) = false ->
  col_ok c1 = true -> all_digits r1 = true ->
  col_ok c2 = true -> all_digits r2 = true ->
  rest_ok rest = true ->
  is_empty (cell_token c1 r1) = false ->
  is_empty (cell_token c2 r2) = false ->
  exists r,
    toGridRange self (RangeStr (range_string c1 r1 c2 r2 rest)) = Return r /\
    (cols_ordered r = true <->
       forall l1 l2, c1 = Some l1 -> c2 = Some l2 -> ord l1 <= ord l2 + 1) /\
    (rows_ordered r = true <->
       (is_empty r1 = false -> is_empty r2 = false ->
        decimal r1 <= decimal r2 + 1)).
Proof.
  intros Hs Hc1 Hr1 Hc2 Hr2 Hrest Hn1 Hn2.
  eexists. split.
  { unfold toGridRange. rewrite Hs. rewrite parse_range_form by done.
    cbn [obind]. reflexivity. }
  unfold cols_ordered, rows_ordered, ordered_on.
  rewrite !lookup_insert_ne by done.
  rewrite grid_bounds_startCol, grid_bounds_endCol,
    grid_bounds_startRow, grid_bounds_endRow.
  unfold start_col, end_col, start_row, end_row. split.
  - destruct c1 as [l1|], c2 as [l2|]; simpl;
      rewrite ?Z.leb_le; split; try done.
    + intros H ?? [= <-] [= <-]. lia.
    + intros H. specialize (H l1 l2 eq_refl eq_refl). lia.
  - destruct (is_empty r1), (is_empty r2); simpl;
      rewrite ?Z.leb_le; split; try done.
    + intros H _ _. lia.
    + intros H. specialize (H eq_refl eq_refl). lia.
Qed.

Lemma toGridRange_order_witness :
  exists r,
    toGridRange bound7 (RangeStr "B2:B1") = Return r /\
    (cols_ordered r = true <->
       forall l1 l2, Some "B"%char = Some l1 -> Some "B"%char = Some l2 ->
                     ord l1 <= ord l2 + 1) /\
    (rows_ordered r = true <->
       (is_empty "2" = false -> is_empty "1" = false ->
        decimal "2" <= decimal "1" + 1)).
Proof.
  exact (toGridRange_order bound7 (Some "B"%char) "2" (Some "B"%char) "1" ""
           eq_refl eq_refl eq_refl eq_refl eq_refl eq_refl eq_refl eq_refl).
Defined.

(** ** Properties of the queuing operations *)

(** C7.  [prepare_setValues] with no sheet title bound raises
    [SheetNotSetError] and leaves the session, hence the value-write
    queue, as it was; with title [t] bound it appends to the value-write
    queue one entry whose range is [t], then "!", then the given range,
    and whose values and major dimension are the given ones, and touches
    nothing else. *)
Theorem prepare_setValues_spec self cellsRange values majorDimension :
  (is_None (sheetTitle self) = true ->
   prepare_setValues cellsRange values majorDimension self =
     (self, Raise SheetNotSetError)) /\
  (forall title, sheetTitle self = JStr title ->
   exists entry,
     prepare_setValues cellsRange values majorDimension self =
       (set_valueRanges (valueRanges self ++ [entry]) self, Return tt) /\
     getitem_key entry "range" = Return (JStr (title ++ "!" ++ cellsRange)) /\
     getitem_key entry "values" = Return values /\
     getitem_key entry "majorDimension" = Return majorDimension).
Proof.
  unfold prepare_setValues, bind, get, raise, append_valueRange, modify.
  split.
  - intros H. by rewrite H.
  - intros title H. rewrite H. cbn [is_None].
    eexists. split; [reflexivity|].
    unfold getitem_key, py_dict. cbn [foldl fst snd].
    split; [reflexivity|]. split; reflexivity.
Qed.

(** The scenario of the specification: sheet 7 titled "Sheet1", a write
    of [[["x"]]] to "A1:A1". *)
Lemma prepare_setValues_spec_witness :
  prepare_setValues "A1:A1" (JList [JList [JStr "x"]]) (JStr "ROWS") init =
    (init, Raise SheetNotSetError) /\
  exists entry,
    prepare_setValues "A1:A1" (JList [JList [JStr "x"]]) (JStr "ROWS") bound7 =
      (set_valueRanges (valueRanges bound7 ++ [entry]) bound7, Return tt) /\
    getitem_key entry "range" = Return (JStr "Sheet1!A1:A1") /\
    getitem_key entry "values" = Return (JList [JList [JStr "x"]]) /\
    getitem_key entry "majorDimension" = Return (JStr "ROWS").
Proof.
  split.
  - exact (proj1 (prepare_setValues_spec init "A1:A1"
                    (JList [JList [JStr "x"]]) (JStr "ROWS")) eq_refl).
  - exact (proj2 (prepare_setValues_spec bound7 "A1:A1"
                    (JList [JList [JStr "x"]]) (JStr "ROWS")) "Sheet1" eq_refl).
Defined.

Lemma prepare_setDimensionPixelSize_eq dimension a b p self :
  prepare_setDimensionPixelSize dimension a b p self =
    if is_None (sheetId self) then (self, Raise SheetNotSetError)
    else (set_requests (requests self ++ [dimension_request (sheetId self) dimension a b p]) self,
          Return tt).
Proof.
  unfold prepare_setDimensionPixelSize, bind, get, raise, append_request, modify.
  by destruct (is_None (sheetId self)).
Qed.

(** C9.  From any state, [prepare_setColumnWidth c w] and
    [prepare_setColumnsWidth c c w] have the same effect and the same
    outcome: with a sheet bound both append the request that resizes
    columns [c, c + 1) to [w]; with none bound both raise
    [SheetNotSetError] and change nothing. *)
Theorem prepare_setColumnWidth_range c w self :
  prepare_setColumnWidth c w self = prepare_setColumnsWidth c c w self /\
  prepare_setColumnsWidth c c w self =
    if is_None (sheetId self) then (self, Raise SheetNotSetError)
    else (set_requests
            (requests self ++ [dimension_request (sheetId self) "COLUMNS" c (c + 1) w])
            self,
          Return tt).
Proof.
  split; [reflexivity|].
  unfold prepare_setColumnsWidth. apply prepare_setDimensionPixelSize_eq.
Qed.

(** ** Properties of the flush *)

(** Runs the monadic plumbing and leaves the payloads alone. *)
Ltac run_monad :=
  lazy beta iota zeta delta
    [bind get_self lift_self get raise try_finally remote_call ret modify
     of_outcome append_request append_valueRange fst snd].

Lemma clear_queues_empty self :
  requests self = [] -> valueRanges self = [] -> clear_queues self = self.
Proof. destruct self; simpl; intros -> ->; reflexivity. Qed.

Section FlushFacts.
Context {R : Type}.
Variable execute : call -> R -> R * outcome json.

Lemma runPrepared_unbound valueInputOption self w :
  is_None (spreadsheetId self) = true ->
  runPrepared execute valueInputOption (self, w) =
    ((self, w), Raise SpreadsheetNotSetError).
Proof.
  intros H. unfold runPrepared. run_monad. by rewrite H.
Qed.

(** With a spreadsheet bound the queues are empty on every exit. *)
Lemma runPrepared_bound valueInputOption self w :
  is_None (spreadsheetId self) = false ->
  exists w' r,
    runPrepared execute valueInputOption (self, w) =
      ((clear_queues self, w'), r).
Proof.
  intros H. unfold runPrepared. run_monad. rewrite H.
  repeat (match goal with
          | |- context [(0 <? ?n)%nat] => destruct (0 <? n)%nat
          | |- context [execute ?c ?r] => destruct (execute c r) as [? [?|?]]
          | |- context [getitem_key ?u ?k] => destruct (getitem_key u k)
          end; run_monad);
    by eauto.
Qed.

(** Nothing queued: no call goes out and two empty lists come back. *)
Lemma runPrepared_nothing_queued valueInputOption self w :
  is_None (spreadsheetId self) = false ->
  requests self = [] -> valueRanges self = [] ->
  runPrepared execute valueInputOption (self, w) =
    ((self, w), Return (JList [], JList [])).
Proof.
  intros H Hq Hv. unfold runPrepared. run_monad. rewrite H, Hq.
  change (0 <? List.length [])%nat with false. run_monad. rewrite Hv.
  change (0 <? List.length [])%nat with false. run_monad.
  change (getitem_key (py_dict [("replies", JList [])]) "replies")
    with (Return (JList [])).
  change (getitem_key (py_dict [("responses", JList [])]) "responses")
    with (Return (JList [])).
  run_monad. fold (clear_queues self).
  rewrite (clear_queues_empty self Hq Hv). by destruct w.
Qed.
End FlushFacts.

(** With no spreadsheet bound the flush raises before its [try], so the
    queued request is still there afterwards, and a second flush raises
    again instead of returning two empty lists. *)
Lemma runPrepared_unbound_keeps_queue :
  let out := runPrepared sample_service (JStr "USER_ENTERED")
               (unbound_queued, world0) in
  snd out = Raise SpreadsheetNotSetError /\
  requests (fst (fst out)) <> [] /\
  runPrepared sample_service (JStr "USER_ENTERED") (fst out)
    <> (fst out, Return (JList [], JList [])).
Proof.
  cbv zeta.
  rewrite (runPrepared_unbound sample_service _ unbound_queued world0 eq_refl).
  cbn [fst snd].
  rewrite (runPrepared_unbound sample_service _ unbound_queued world0 eq_refl).
  split; [reflexivity|]. split; discriminate.
Qed.

(** The service rejects the structural batch: the value batch is not
    sent, the exception propagates, and both queues are empty. *)
Example runPrepared_remote_failure :
  runPrepared failing_service (JStr "USER_ENTERED")
      (both_queued, {| remote := tt; calls := [] |}) =
    ((bound7,
      {| remote := tt;
         calls := [BatchUpdate (JStr "doc")
                     (py_dict [("requests", JList (requests both_queued))])] |}),
     Raise (RemoteError "403")).
Proof. vm_compute. reflexivity. Qed.

(** Structural queue empty, one value write queued: one outbound call,
    the value batch, and an empty list of structural replies. *)
Example runPrepared_values_only :
  let self := fst (prepare_setValues "A1:A1" (JList [JList [JStr "x"]])
                     (JStr "ROWS") bound7) in
  exists entry,
    valueRanges self = [entry] /\
    getitem_key entry "range" = Return (JStr "Sheet1!A1:A1") /\
    runPrepared sample_service (JStr "USER_ENTERED") (self, world0) =
      ((bound7,
        {| remote := 100;
           calls := [ValuesBatchUpdate (JStr "doc")
                       (py_dict [("valueInputOption", JStr "USER_ENTERED");
                                 ("data", JList [entry])])] |}),
       Return (JList [], JList [py_dict []])).
Proof.
  eexists. split; [reflexivity|]. split; vm_compute; reflexivity.
Qed.

(** C2, amended.  [runPrepared] always ends in one of two ways.  With no
    spreadsheet bound it raises [SpreadsheetNotSetError] at once: session,
    queues and remote service are untouched.  With a spreadsheet bound,
    whatever the queues hold and whatever the service answers (reply or
    exception), both queues are empty when it returns or raises, the three
    identifiers are unchanged, and a second flush right after issues no
    call and returns two empty lists. *)
Theorem runPrepared_queues {R : Type} (execute : call -> R -> R * outcome json)
    valueInputOption self w :
  exists self' w' r,
    runPrepared execute valueInputOption (self, w) = ((self', w'), r) /\
    if is_None (spreadsheetId self)
    then self' = self /\ w' = w /\ r = Raise SpreadsheetNotSetError
    else requests self' = [] /\ valueRanges self' = [] /\
         spreadsheetId self' = spreadsheetId self /\
         sheetId self' = sheetId self /\
         sheetTitle self' = sheetTitle self /\
         forall valueInputOption',
           runPrepared execute valueInputOption' (self', w') =
             ((self', w'), Return (JList [], JList [])).
Proof.
  destruct (is_None (spreadsheetId self)) eqn:H.
  - exists self, w, (Raise SpreadsheetNotSetError).
    by rewrite runPrepared_unbound.
  - destruct (runPrepared_bound execute valueInputOption self w H)
      as (w' & r & Hrun).
    exists (clear_queues self), w', r. split; [done|].
    repeat split. intros opt'.
    by apply runPrepared_nothing_queued.
Qed.

(** ** Queuing before a spreadsheet is bound *)

Lemma toGridRange_unbound self cr :
  is_None (sheetId self) = true -> toGridRange self cr = Raise SheetNotSetError.
Proof. intros H. unfold toGridRange. by rewrite H. Qed.

Lemma toGridRange_not_spreadsheet_error self cr :
  toGridRange self cr <> Raise SpreadsheetNotSetError.
Proof.
  unfold toGridRange. destruct (is_None (sheetId self)); [done|].
  destruct cr as [s|d]; [|done].
  unfold parse_range, split_cells, str_first, py_int.
  repeat (match goal with
          | |- context [match ?x with _ => _ end] => destruct x
          end; cbn [obind]; try discriminate).
Qed.

(** A fresh session has no spreadsheet; sizing a column in it fails at
    queue time, with the sheet error. *)
Lemma prepare_setColumnWidth_fresh_raises :
  is_None (spreadsheetId init) = true /\
  prepare (SetColumnWidthOp 0 500) init = (init, Raise SheetNotSetError) /\
  prepare_setColumnWidth 0 500 init = (init, Raise SheetNotSetError).
Proof. repeat split. Qed.

(** Each queuing operation either appends one request or raises and
    leaves the session as it was; which one depends only on the sheet
    identifier and on the range argument. *)
Lemma prepare_dimension_cases d a b p self :
  (exists x, prepare_setDimensionPixelSize d a b p self = (queued self x, Return tt) /\
             is_None (sheetId self) = false) \/
  (prepare_setDimensionPixelSize d a b p self = (self, Raise SheetNotSetError) /\
   is_None (sheetId self) = true).
Proof.
  rewrite prepare_setDimensionPixelSize_eq.
  destruct (is_None (sheetId self)).
  - right. split; reflexivity.
  - left. eexists. split; reflexivity.
Qed.

Lemma prepare_range_cases cr (f : gmap string json -> json) self :
  (exists d, toGridRange self cr = Return d /\
             is_None (sheetId self) = false /\
             (let! self := get in
              let! range := of_outcome (toGridRange self cr) in
              append_request (f range)) self = (queued self (f d), Return tt)) \/
  (exists e, toGridRange self cr = Raise e /\
             e <> SpreadsheetNotSetError /\
             (is_None (sheetId self) = true -> e = SheetNotSetError) /\
             (let! self := get in
              let! range := of_outcome (toGridRange self cr) in
              append_request (f range)) self = (self, Raise e)).
Proof.
  run_monad.
  pose proof (toGridRange_not_spreadsheet_error self cr) as Hne.
  pose proof (toGridRange_unbound self cr) as Hun.
  destruct (toGridRange self cr) as [d|e].
  - left. exists d. split; [reflexivity|]. split; [|reflexivity].
    destruct (is_None (sheetId self)); [|reflexivity].
    specialize (Hun eq_refl). discriminate Hun.
  - right. exists e. split; [reflexivity|]. split.
    + intros ->. by apply Hne.
    + split; [|reflexivity]. intros Hs. specialize (Hun Hs). by injection Hun.
Qed.

Lemma prepare_cases op self :
  (exists x, prepare op self = (queued self x, Return tt) /\
             (needs_sheet op = true -> is_None (sheetId self) = false) /\
             resolves self op) \/
  (exists e, prepare op self = (self, Raise e) /\
             needs_sheet op = true /\
             e <> SpreadsheetNotSetError /\
             (is_None (sheetId self) = true -> e = SheetNotSetError) /\
             (is_None (sheetId self) = false -> ~ resolves self op)).
Proof.
  assert (Hdim : forall d a b p,
    range_of op = None -> needs_sheet op = true ->
    prepare op self = prepare_setDimensionPixelSize d a b p self ->
    (exists x, prepare op self = (queued self x, Return tt) /\
               (needs_sheet op = true -> is_None (sheetId self) = false) /\
               resolves self op) \/
    (exists e, prepare op self = (self, Raise e) /\
               needs_sheet op = true /\
               e <> SpreadsheetNotSetError /\
               (is_None (sheetId self) = true -> e = SheetNotSetError) /\
               (is_None (sheetId self) = false -> ~ resolves self op))).
  { intros d a b p Hr Hn ->. unfold resolves. rewrite Hr.
    destruct (prepare_dimension_cases d a b p self) as [(x & -> & Hs)|[-> Hs]].
    - left. exists x. split; [reflexivity|]. split; [intros _; exact Hs|exact I].
    - right. exists SheetNotSetError. split; [reflexivity|]. split; [exact Hn|].
      split; [discriminate|]. split; [reflexivity|].
      intros Hf. rewrite Hs in Hf. discriminate Hf. }
  assert (Hrange : forall cr (f : gmap string json -> json),
    range_of op = Some cr -> needs_sheet op = true ->
    prepare op self =
      (let! self := get in
       let! range := of_outcome (toGridRange self cr) in
       append_request (f range)) self ->
    (exists x, prepare op self = (queued self x, Return tt) /\
               (needs_sheet op = true -> is_None (sheetId self) = false) /\
               resolves self op) \/
    (exists e, prepare op self = (self, Raise e) /\
               needs_sheet op = true /\
               e <> SpreadsheetNotSetError /\
               (is_None (sheetId self) = true -> e = SheetNotSetError) /\
               (is_None (sheetId self) = false -> ~ resolves self op))).
  { intros cr f Hr Hn ->. unfold resolves. rewrite Hr.
    destruct (prepare_range_cases cr f self)
      as [(d & Hd & Hs & ->)|(e & He & Hne & Hun & ->)].
    - left. exists (f d). split; [reflexivity|]. split; [intros _; exact Hs|].
      exists d. exact Hd.
    - right. exists e. split; [reflexivity|]. split; [exact Hn|].
      split; [exact Hne|]. split; [exact Hun|].
      intros _ [d Hd]. rewrite He in Hd. discriminate Hd. }
  destruct op as [t r c|d a b p|a b w|c w|a b h|r h|cr m|cr f fields|cr fs fields].
  - left. eexists. split; [reflexivity|]. split; [discriminate|exact I].
  - exact (Hdim d a b p eq_refl eq_refl eq_refl).
  - exact (Hdim "COLUMNS" a (b + 1) w eq_refl eq_refl eq_refl).
  - exact (Hdim "COLUMNS" c (c + 1) w eq_refl eq_refl eq_refl).
  - exact (Hdim "ROWS" a (b + 1) h eq_refl eq_refl eq_refl).
  - exact (Hdim "ROWS" r (r + 1) h eq_refl eq_refl eq_refl).
  - exact (Hrange cr _ eq_refl eq_refl eq_refl).
  - exact (Hrange cr _ eq_refl eq_refl eq_refl).
  - exact (Hrange cr _ eq_refl eq_refl eq_refl).
Qed.

(** C3, amended.  In a session with no spreadsheet bound,
    [prepare_addSheet] queues its request without raising; every other
    operation that appends to the structural queue raises
    [SheetNotSetError] at queue time when no sheet identifier is bound
    either, and queues its request when one is bound and its range, if it
    has one, resolves; none of them ever raises [SpreadsheetNotSetError];
    [runPrepared] raises it, whatever is queued and whatever the service
    would answer, and changes nothing. *)
Theorem prepare_without_spreadsheet self :
  is_None (spreadsheetId self) = true ->
  (forall t r c, exists x,
     prepare_addSheet t r c self = (queued self x, Return tt)) /\
  (forall op, needs_sheet op = true -> is_None (sheetId self) = true ->
     prepare op self = (self, Raise SheetNotSetError)) /\
  (forall op, is_None (sheetId self) = false -> resolves self op ->
     exists x, prepare op self = (queued self x, Return tt)) /\
  (forall op self', prepare op self <> (self', Raise SpreadsheetNotSetError)) /\
  (forall (R : Type) (execute : call -> R -> R * outcome json) valueInputOption w,
     runPrepared execute valueInputOption (self, w) =
       ((self, w), Raise SpreadsheetNotSetError)).
Proof.
  intros Hunbound. split; [|split; [|split; [|split]]].
  - intros t r c. eexists. reflexivity.
  - intros op Hn Hs.
    destruct (prepare_cases op self)
      as [(x & _ & Hb & _)|(e & -> & _ & _ & He & _)].
    + specialize (Hb Hn). rewrite Hs in Hb. discriminate Hb.
    + by rewrite (He Hs).
  - intros op Hs Hr.
    destruct (prepare_cases op self)
      as [(x & Hx & _)|(e & _ & _ & _ & _ & He)].
    + by exists x.
    + destruct (He Hs Hr).
  - intros op self' Hp.
    destruct (prepare_cases op self)
      as [(x & Hx & _)|(e & He & _ & Hne & _)].
    + rewrite Hx in Hp. discriminate Hp.
    + rewrite He in Hp. injection Hp as _ ->. by apply Hne.
  - intros R execute opt w. by apply runPrepared_unbound.
Qed.

Lemma prepare_without_spreadsheet_witness :
  (exists x, prepare_addSheet (JStr "Report") (JInt 1000) (JInt 26) init =
               (queued init x, Return tt)) /\
  prepare (SetRowHeightOp 6 230) init = (init, Raise SheetNotSetError) /\
  runPrepared sample_service (JStr "USER_ENTERED") (unbound_queued, world0) =
    ((unbound_queued, world0), Raise SpreadsheetNotSetError).
Proof.
  split; [|split].
  - exact (proj1 (prepare_without_spreadsheet init eq_refl) _ _ _).
  - exact (proj1 (proj2 (prepare_without_spreadsheet init eq_refl))
             (SetRowHeightOp 6 230) eq_refl eq_refl).
  - exact (proj2 (proj2 (proj2 (proj2
             (prepare_without_spreadsheet unbound_queued eq_refl))))
             Z sample_service (JStr "USER_ENTERED") world0).
Defined.

(** ** addSheet *)

Lemma prepare_addSheet_eq t r c self :
  prepare_addSheet t r c self = (queued self (addSheet_request t r c), Return tt).
Proof. reflexivity. Qed.

(** C10.  [addSheet] sends the queued requests together with its own,
    which is the last of the batch, and then reads the first reply.  With
    a merge queued before it, the service adds the sheet (its next free
    identifier moves from 100 to 101) but the first reply is the empty
    reply to the merge: [addSheet] raises [KeyError] and the session
    still points at sheet 7.  With a [prepare_addSheet "Old"] queued
    before it, the service creates "Old" as 100 and "New" as 101, and
    [addSheet "New"] binds the session to "Old" and returns 100.  Both
    queues are empty afterwards in both runs. *)
Theorem addSheet_reads_first_reply :
  addSheet sample_service (JStr "New") (JInt 1000) (JInt 26)
      (merge_queued, world0) =
    ((bound7, {| remote := 101; calls := [batch_of merge_queued "New"] |}),
     Raise KeyError) /\
  addSheet sample_service (JStr "New") (JInt 1000) (JInt 26)
      (sheet_queued, world0) =
    ((set_sheetTitle (JStr "Old") (set_sheetId (JInt 100) bound7),
      {| remote := 102; calls := [batch_of sheet_queued "New"] |}),
     Return (JInt 100)).
Proof. split; vm_compute; reflexivity. Qed.

(** The same call with nothing queued binds the session to the new
    sheet. *)
Example addSheet_nothing_queued :
  addSheet sample_service (JStr "New") (JInt 1000) (JInt 26) (bound7, world0) =
    ((set_sheetTitle (JStr "New") (set_sheetId (JInt 100) bound7),
      {| remote := 101; calls := [batch_of bound7 "New"] |}),
     Return (JInt 100)).
Proof. vm_compute. reflexivity. Qed.

Ltac run_session :=
  run_monad;
  cbn [set_requests set_valueRanges set_sheetId set_sheetTitle
       spreadsheetId sheetId sheetTitle requests valueRanges remote calls].

(** Whatever the service answers, [addSheet] on a bound session sends the
    whole structural queue with its own request appended as the last one,
    as its first call, and leaves both queues empty. *)
Lemma addSheet_flushes {R : Type} (execute : call -> R -> R * outcome json)
    t r c self w :
  is_None (spreadsheetId self) = false ->
  exists self' w' o more,
    addSheet execute t r c (self, w) = ((self', w'), o) /\
    requests self' = [] /\ valueRanges self' = [] /\
    spreadsheetId self' = spreadsheetId self /\
    calls w' = (calls w ++
      BatchUpdate (spreadsheetId self)
        (py_dict [("requests", JList (requests self ++ [addSheet_request t r c]))])
      :: more)%list.
Proof.
  intros H. unfold addSheet. run_monad. rewrite H.
  rewrite prepare_addSheet_eq. unfold runPrepared, queued. run_session.
  rewrite H. run_session.
  assert (Hlen : (0 <? List.length (requests self ++ [addSheet_request t r c]))%nat = true).
  { rewrite length_app. simpl. apply Nat.ltb_lt. lia. }
  rewrite Hlen. run_session.
  repeat (match goal with
          | |- context [(0 <? ?n)%nat] => destruct (0 <? n)%nat
          | |- context [execute ?c ?r] => destruct (execute c r) as [? [?|?]]
          | |- context [getitem_key ?u ?k] => destruct (getitem_key u k)
          | |- context [getitem_idx ?u ?k] => destruct (getitem_idx u k)
          end; run_session).
  all: do 4 eexists.
  all: (split; [reflexivity|]).
  all: cbn [set_requests set_valueRanges set_sheetId set_sheetTitle
            spreadsheetId requests valueRanges calls].
  all: repeat split.
  all: rewrite <- ?app_assoc; reflexivity.
Qed.

(** * Further properties of the code *)

(** ** The flush, call by call *)

Lemma nonempty_length {A} (l : list A) :
  l <> [] -> (0 <? List.length l)%nat = true.
Proof. destruct l; [done|]. reflexivity. Qed.

Lemma getitem_default_replies :
  getitem_key (py_dict [("replies", JList [])]) "replies" = Return (JList []).
Proof. reflexivity. Qed.

Lemma getitem_default_responses :
  getitem_key (py_dict [("responses", JList [])]) "responses" = Return (JList []).
Proof. reflexivity. Qed.

Section FlushCalls.
Context {R : Type}.
Variable execute : call -> R -> R * outcome json.

(** The flush of a session with value writes only. *)
Lemma runPrepared_values_call valueInputOption self w :
  is_None (spreadsheetId self) = false ->
  requests self = [] -> valueRanges self <> [] ->
  exists r' o,
    execute (values_call valueInputOption self) (remote w) = (r', o) /\
    runPrepared execute valueInputOption (self, w) =
      ((clear_queues self,
        {| remote := r';
           calls := calls w ++ [values_call valueInputOption self] |}),
       match o with
       | Return resp =>
           let? v := getitem_key resp "responses" in Return (JList [], v)
       | Raise e => Raise e
       end).
Proof.
  intros H Hq Hv. unfold runPrepared, values_call. run_session. rewrite H, Hq.
  change (0 <? List.length [])%nat with false. run_session.
  rewrite (nonempty_length _ Hv). run_session.
  destruct (execute _ (remote w)) as [r' [resp|e]]; run_session.
  - exists r', (Return resp). split; [reflexivity|].
    rewrite getitem_default_replies. run_session.
    by destruct (getitem_key resp "responses").
  - by exists r', (Raise e).
Qed.

(** X1.  With a spreadsheet bound, nothing in the structural queue and at
    least one value write queued, [runPrepared] issues exactly one call,
    the value batch carrying every queued write in order, and clears the
    queue; if the service answers, the structural replies returned are
    the empty list and the responses are what the answer holds under
    "responses"; if it raises, the exception propagates. *)
Theorem runPrepared_value_batch_alone valueInputOption self w :
  is_None (spreadsheetId self) = false ->
  requests self = [] -> valueRanges self <> [] ->
  exists r' o,
    execute (values_call valueInputOption self) (remote w) = (r', o) /\
    runPrepared execute valueInputOption (self, w) =
      ((clear_queues self,
        {| remote := r';
           calls := calls w ++ [values_call valueInputOption self] |}),
       match o with
       | Return resp =>
           let? v := getitem_key resp "responses" in Return (JList [], v)
       | Raise e => Raise e
       end).
Proof. apply runPrepared_values_call. Qed.

(** X2.  When the service rejects the structural batch, [runPrepared]
    never sends the value batch: the log grows by the structural call
    only, the exception propagates, and both queues are empty, so the
    queued value writes are dropped unsent. *)
Theorem runPrepared_structural_failure valueInputOption self w r' e :
  is_None (spreadsheetId self) = false ->
  requests self <> [] ->
  execute (structural_call self) (remote w) = (r', Raise e) ->
  runPrepared execute valueInputOption (self, w) =
    ((clear_queues self,
      {| remote := r'; calls := calls w ++ [structural_call self] |}),
     Raise e).
Proof.
  intros H Hq He. unfold runPrepared. run_session. rewrite H.
  rewrite (nonempty_length _ Hq). run_session.
  unfold structural_call in He. rewrite He. run_session. reflexivity.
Qed.

(** X3.  With both queues non-empty and both calls answered, the log
    grows by the structural call and then the value call, the second
    being executed on the service state the first one left; the result
    is the pair of what the two answers hold under "replies" and
    "responses". *)
Theorem runPrepared_both_calls valueInputOption self w r1 resp1 r2 resp2 a b :
  is_None (spreadsheetId self) = false ->
  requests self <> [] -> valueRanges self <> [] ->
  execute (structural_call self) (remote w) = (r1, Return resp1) ->
  execute (values_call valueInputOption self) r1 = (r2, Return resp2) ->
  getitem_key resp1 "replies" = Return a ->
  getitem_key resp2 "responses" = Return b ->
  runPrepared execute valueInputOption (self, w) =
    ((clear_queues self,
      {| remote := r2;
         calls := calls w ++ [structural_call self;
                              values_call valueInputOption self] |}),
     Return (a, b)).
Proof.
  intros H Hq Hv H1 H2 Ha Hb. unfold runPrepared. run_session. rewrite H.
  rewrite (nonempty_length _ Hq). run_session.
  unfold structural_call in H1. rewrite H1. run_session.
  rewrite (nonempty_length _ Hv). run_session.
  unfold values_call in H2. rewrite H2. run_session.
  rewrite Ha. run_session. rewrite Hb. run_session.
  by rewrite <- app_assoc.
Qed.


(** X5.  Whatever the session, the queues and the service, one
    [runPrepared] keeps the log of earlier calls and adds at most two
    calls to it, every one of them addressed to the spreadsheet of the
    session; with no spreadsheet bound it adds none. *)
Theorem runPrepared_call_budget valueInputOption self w :
  exists self' w' o new,
    runPrepared execute valueInputOption (self, w) = ((self', w'), o) /\
    calls w' = (calls w ++ new)%list /\
    (List.length new <= 2)%nat /\
    Forall (fun c => call_target c = spreadsheetId self) new /\
    (is_None (spreadsheetId self) = true -> new = []).
Proof.
  destruct (is_None (spreadsheetId self)) eqn:H.
  { exists self, w, (Raise SpreadsheetNotSetError), [].
    rewrite runPrepared_unbound by done. rewrite app_nil_r.
    repeat split; [simpl; lia|constructor]. }
  unfold runPrepared. run_session. rewrite H.
  repeat (match goal with
          | |- context [(0 <? ?n)%nat] => destruct (0 <? n)%nat
          | |- context [execute ?c ?r] => destruct (execute c r) as [? [?|?]]
          | |- context [getitem_key ?u ?k] => destruct (getitem_key u k)
          end; run_session).
  all: do 4 eexists.
  all: (split; [reflexivity|]).
  all: cbn [calls].
  all: (split; [rewrite <- ?app_assoc; try reflexivity;
                symmetry; apply app_nil_r|]).
  all: (split; [simpl; lia|]).
  all: (split; [repeat constructor|discriminate]).
Qed.
End FlushCalls.

Lemma runPrepared_value_batch_alone_witness :
  exists r' o,
    sample_service (values_call (JStr "RAW") values_queued) (remote world0) = (r', o) /\
    runPrepared sample_service (JStr "RAW") (values_queued, world0) =
      ((clear_queues values_queued,
        {| remote := r';
           calls := calls world0 ++ [values_call (JStr "RAW") values_queued] |}),
       match o with
       | Return resp =>
           let? v := getitem_key resp "responses" in Return (JList [], v)
       | Raise e => Raise e
       end).
Proof.
  apply (runPrepared_value_batch_alone sample_service (JStr "RAW") values_queued world0).
  - reflexivity.
  - reflexivity.
  - discriminate.
Defined.

Lemma runPrepared_structural_failure_witness :
  runPrepared failing_service (JStr "USER_ENTERED") (both_queued, unit_world) =
    ((clear_queues both_queued,
      {| remote := tt; calls := calls unit_world ++ [structural_call both_queued] |}),
     Raise (RemoteError "403")).
Proof.
  apply (runPrepared_structural_failure failing_service).
  - reflexivity.
  - discriminate.
  - reflexivity.
Defined.

Lemma runPrepared_both_calls_witness :
  runPrepared sample_service (JStr "USER_ENTERED") (both_queued, world0) =
    ((clear_queues both_queued,
      {| remote := 100;
         calls := calls world0 ++
                  [structural_call both_queued;
                   values_call (JStr "USER_ENTERED") both_queued] |}),
     Return (JList [py_dict []], JList [py_dict []])).
Proof.
  eapply (runPrepared_both_calls sample_service).
  - reflexivity.
  - discriminate.
  - discriminate.
  - vm_compute. reflexivity.
  - vm_compute. reflexivity.
  - vm_compute. reflexivity.
  - vm_compute. reflexivity.
Defined.


(** ** addSheet against an arbitrary service *)

Section AddSheetFacts.
Context {R : Type}.
Variable execute : call -> R -> R * outcome json.

(** X6.  With no spreadsheet bound [addSheet] raises
    [SpreadsheetNotSetError] before anything else: nothing is queued and
    no call goes out.  The two steps it is made of behave otherwise:
    [prepare_addSheet] followed by [runPrepared] raises the same error
    but leaves the add-sheet request in the queue. *)
Theorem addSheet_unbound sheetTitle rows cols valueInputOption self w :
  is_None (spreadsheetId self) = true ->
  addSheet execute sheetTitle rows cols (self, w) =
    ((self, w), Raise SpreadsheetNotSetError) /\
  (do! lift_self (prepare_addSheet sheetTitle rows cols) in
   runPrepared execute valueInputOption) (self, w) =
    ((queued self (addSheet_request sheetTitle rows cols), w),
     Raise SpreadsheetNotSetError).
Proof.
  intros H. split.
  - unfold addSheet. run_session. by rewrite H.
  - unfold bind at 1. unfold lift_self.
    rewrite prepare_addSheet_eq. cbn [fst snd].
    by rewrite runPrepared_unbound.
Qed.

(** X7.  With a spreadsheet bound and both queues empty, if the service
    answers the batch with a list of replies whose first one is the reply
    to the add-sheet request, [addSheet] binds the session to the sheet
    identifier and the title found in that reply, returns the identifier,
    issues that one call and leaves everything else as it was. *)
Theorem addSheet_rebinds sheetTitle rows cols self w r1 resp p rest sid title :
  is_None (spreadsheetId self) = false ->
  requests self = [] -> valueRanges self = [] ->
  execute (structural_call (queued self (addSheet_request sheetTitle rows cols)))
          (remote w) = (r1, Return resp) ->
  getitem_key resp "replies" = Return (JList (addSheet_reply p :: rest)) ->
  p !! "sheetId" = Some sid -> p !! "title" = Some title ->
  addSheet execute sheetTitle rows cols (self, w) =
    ((set_sheetTitle title (set_sheetId sid self),
      {| remote := r1;
         calls := calls w ++
           [structural_call (queued self (addSheet_request sheetTitle rows cols))] |}),
     Return sid).
Proof.
  intros H Hq Hv H1 Hr Hsid Htitle.
  unfold addSheet. run_session. rewrite H.
  rewrite prepare_addSheet_eq. unfold runPrepared, queued. run_session.
  rewrite H. run_session.
  rewrite nonempty_length by (by destruct (requests self)). run_session.
  unfold structural_call, queued in H1. cbn [set_requests spreadsheetId requests] in H1.
  rewrite H1. run_session.
  rewrite Hv. change (0 <? List.length [])%nat with false. run_session.
  rewrite Hr. run_session. rewrite getitem_default_responses. run_session.
  change (getitem_idx (JList (addSheet_reply p :: rest)) 0)
    with (Return (addSheet_reply p)). run_session.
  change (getitem_key (addSheet_reply p) "addSheet")
    with (Return (py_dict [("properties", JDict p)])). run_session.
  change (getitem_key (py_dict [("properties", JDict p)]) "properties")
    with (Return (JDict p)). run_session.
  unfold getitem_key. rewrite Hsid. run_session. rewrite Htitle. run_session.
  destruct self; simpl in *; subst. reflexivity.
Qed.

(** X8.  When the service rejects the batch, [addSheet] propagates the
    exception, keeps the three identifiers of the session, and leaves
    both queues empty: requests and value writes queued before the call
    are dropped, the value writes without having been sent. *)
Theorem addSheet_remote_failure sheetTitle rows cols self w r1 e :
  is_None (spreadsheetId self) = false ->
  execute (structural_call (queued self (addSheet_request sheetTitle rows cols)))
          (remote w) = (r1, Raise e) ->
  addSheet execute sheetTitle rows cols (self, w) =
    ((clear_queues self,
      {| remote := r1;
         calls := calls w ++
           [structural_call (queued self (addSheet_request sheetTitle rows cols))] |}),
     Raise e).
Proof.
  intros H H1.
  unfold addSheet. run_session. rewrite H.
  rewrite prepare_addSheet_eq. unfold runPrepared, queued. run_session.
  rewrite H. run_session.
  rewrite nonempty_length by (by destruct (requests self)). run_session.
  unfold structural_call, queued in H1. cbn [set_requests spreadsheetId requests] in H1.
  rewrite H1. run_session. reflexivity.
Qed.

End AddSheetFacts.

Lemma addSheet_unbound_witness :
  addSheet sample_service (JStr "New") (JInt 1000) (JInt 26) (init, world0) =
    ((init, world0), Raise SpreadsheetNotSetError) /\
  (do! lift_self (prepare_addSheet (JStr "New") (JInt 1000) (JInt 26)) in
   runPrepared sample_service (JStr "USER_ENTERED")) (init, world0) =
    ((queued init (addSheet_request (JStr "New") (JInt 1000) (JInt 26)), world0),
     Raise SpreadsheetNotSetError).
Proof.
  exact (addSheet_unbound sample_service (JStr "New") (JInt 1000) (JInt 26)
           (JStr "USER_ENTERED") init world0 eq_refl).
Defined.

Lemma addSheet_rebinds_witness :
  addSheet sample_service (JStr "New") (JInt 1000) (JInt 26) (bound7, world0) =
    ((set_sheetTitle (JStr "New") (set_sheetId (JInt 100) bound7),
      {| remote := 101;
         calls := calls world0 ++
           [structural_call
              (queued bound7 (addSheet_request (JStr "New") (JInt 1000) (JInt 26)))] |}),
     Return (JInt 100)).
Proof.
  apply (addSheet_rebinds sample_service (JStr "New") (JInt 1000) (JInt 26)
           bound7 world0 101
           (py_dict [("replies", JList [addSheet_reply new_sheet_properties])])
           new_sheet_properties []).
  - reflexivity.
  - reflexivity.
  - reflexivity.
  - vm_compute. reflexivity.
  - vm_compute. reflexivity.
  - vm_compute. reflexivity.
  - vm_compute. reflexivity.
Defined.

Lemma addSheet_remote_failure_witness :
  addSheet failing_service (JStr "New") (JInt 1000) (JInt 26)
      (both_queued, unit_world) =
    ((clear_queues both_queued,
      {| remote := tt;
         calls := calls unit_world ++
           [structural_call
              (queued both_queued
                 (addSheet_request (JStr "New") (JInt 1000) (JInt 26)))] |}),
     Raise (RemoteError "403")).
Proof.
  apply (addSheet_remote_failure failing_service).
  - reflexivity.
  - reflexivity.
Defined.


(** ** The queuing operations as a whole *)


(** X11.  [prepare_setRowsHeight a b h] with a sheet bound queues one
    request that reads back as: dimension "ROWS" of the current sheet,
    start index [a], end index [b + 1] (the inclusive end made
    exclusive), pixel size [h]; [prepare_setRowHeight r h] is
    [prepare_setRowsHeight r r h]; with no sheet bound both raise
    [SheetNotSetError] and queue nothing. *)
Theorem prepare_setRowsHeight_request a b h self :
  prepare_setRowHeight a h self = prepare_setRowsHeight a a h self /\
  (is_None (sheetId self) = true ->
   prepare_setRowsHeight a b h self = (self, Raise SheetNotSetError)) /\
  (is_None (sheetId self) = false ->
   exists x,
     prepare_setRowsHeight a b h self = (queued self x, Return tt) /\
     getitem_path x ["updateDimensionProperties"; "range"; "sheetId"]
       = Return (sheetId self) /\
     getitem_path x ["updateDimensionProperties"; "range"; "dimension"]
       = Return (JStr "ROWS") /\
     getitem_path x ["updateDimensionProperties"; "range"; "startIndex"]
       = Return (JInt a) /\
     getitem_path x ["updateDimensionProperties"; "range"; "endIndex"]
       = Return (JInt (b + 1)) /\
     getitem_path x ["updateDimensionProperties"; "properties"; "pixelSize"]
       = Return (JInt h) /\
     getitem_path x ["updateDimensionProperties"; "fields"]
       = Return (JStr "pixelSize")).
Proof.
  split; [reflexivity|].
  unfold prepare_setRowsHeight. rewrite prepare_setDimensionPixelSize_eq.
  split; intros ->; [reflexivity|].
  eexists. split; [reflexivity|]. repeat split.
Qed.

Lemma prepare_setRowsHeight_request_witness :
  prepare_setRowsHeight 2 4 30 init = (init, Raise SheetNotSetError) /\
  exists x,
    prepare_setRowsHeight 2 4 30 bound7 = (queued bound7 x, Return tt) /\
    getitem_path x ["updateDimensionProperties"; "range"; "sheetId"]
      = Return (JInt 7) /\
    getitem_path x ["updateDimensionProperties"; "range"; "dimension"]
      = Return (JStr "ROWS") /\
    getitem_path x ["updateDimensionProperties"; "range"; "startIndex"]
      = Return (JInt 2) /\
    getitem_path x ["updateDimensionProperties"; "range"; "endIndex"]
      = Return (JInt (4 + 1)) /\
    getitem_path x ["updateDimensionProperties"; "properties"; "pixelSize"]
      = Return (JInt 30) /\
    getitem_path x ["updateDimensionProperties"; "fields"]
      = Return (JStr "pixelSize").
Proof.
  split.
  - exact (proj1 (proj2 (prepare_setRowsHeight_request 2 4 30 init)) eq_refl).
  - exact (proj2 (proj2 (prepare_setRowsHeight_request 2 4 30 bound7)) eq_refl).
Defined.

(** X12.  [prepare_setCellsFormat] on a range string of the form, with a
    sheet bound: when both tokens are non-empty it queues one
    [repeatCell] request whose range is exactly the bounds of the tokens
    with the current sheet identifier, whose cell format and field mask
    are the given ones; when a token is empty it raises [IndexError] and
    queues nothing. *)
Theorem prepare_setCellsFormat_form self c1 r1 c2 r2 rest formatJSON fields :
  is_None (sheetId self) = false ->
  col_ok c1 = true -> all_digits r1 = true ->
  col_ok c2 = true -> all_digits r2 = true ->
  rest_ok rest = true ->
  if is_empty (cell_token c1 r1) || is_empty (cell_token c2 r2)
  then prepare_setCellsFormat (RangeStr (range_string c1 r1 c2 r2 rest))
         formatJSON fields self = (self, Raise IndexError)
  else exists x,
    prepare_setCellsFormat (RangeStr (range_string c1 r1 c2 r2 rest))
      formatJSON fields self = (queued self x, Return tt) /\
    getitem_path x ["repeatCell"; "range"] =
      Return (JDict (<["sheetId" := sheetId self]>
                       (grid_bounds (start_col c1) (end_col c2)
                                    (start_row r1) (end_row r2)))) /\
    getitem_path x ["repeatCell"; "cell"; "userEnteredFormat"] = Return formatJSON /\
    getitem_path x ["repeatCell"; "fields"] = Return fields.
Proof.
  intros Hs Hc1 Hr1 Hc2 Hr2 Hrest.
  unfold prepare_setCellsFormat. run_monad.
  unfold toGridRange. rewrite Hs.
  destruct (is_empty (cell_token c1 r1) || is_empty (cell_token c2 r2)) eqn:E.
  - rewrite (parse_range_empty_token _ (cell_token c1 r1) (cell_token c2 r2));
      [reflexivity| |done].
    unfold range_string.
    apply split_cells_form; (done || by apply cell_token_no_colon).
  - apply orb_false_elim in E as [E1 E2].
    rewrite parse_range_form by done. cbn [obind].
    eexists. split; [reflexivity|]. repeat split.
Qed.

Lemma prepare_setCellsFormat_form_witness :
  exists x,
    prepare_setCellsFormat (RangeStr "B2:E7") (py_dict []) (JStr "userEnteredFormat")
      bound7 = (queued bound7 x, Return tt) /\
    getitem_path x ["repeatCell"; "range"] =
      Return (JDict (<["sheetId" := JInt 7]>
                       (grid_bounds (Some 1) (Some 5) (Some 1) (Some 7)))) /\
    getitem_path x ["repeatCell"; "cell"; "userEnteredFormat"] = Return (py_dict []) /\
    getitem_path x ["repeatCell"; "fields"] = Return (JStr "userEnteredFormat").
Proof.
  exact (prepare_setCellsFormat_form bound7 (Some "B"%char) "2" (Some "E"%char) "7" ""
           (py_dict []) (JStr "userEnteredFormat")
           eq_refl eq_refl eq_refl eq_refl eq_refl eq_refl).
Defined.

(** X13.  [prepare_setCellsFormats] keeps the shape of the format
    matrix: when the range resolves, the queued [updateCells] request has
    one row per row of the matrix, each with one cell per format of that
    row, in order, every cell being the format wrapped under
    "userEnteredFormat". *)
Theorem prepare_setCellsFormats_shape self cellsRange formatsJSON fields d :
  toGridRange self cellsRange = Return d ->
  exists x rows,
    prepare_setCellsFormats cellsRange formatsJSON fields self =
      (queued self x, Return tt) /\
    getitem_path x ["updateCells"; "range"] = Return (JDict d) /\
    getitem_path x ["updateCells"; "rows"] = Return (JList rows) /\
    List.length rows = List.length formatsJSON /\
    forall i rowFormats, formatsJSON !! i = Some rowFormats ->
      exists cells,
        (rows !! i) ≫= row_cells = Some cells /\
        List.length cells = List.length rowFormats /\
        forall j cellFormat, rowFormats !! j = Some cellFormat ->
          cells !! j = Some (py_dict [("userEnteredFormat", cellFormat)]).
Proof.
  intros Hd. unfold prepare_setCellsFormats. run_monad. rewrite Hd.
  eexists. eexists. split; [reflexivity|].
  split; [reflexivity|]. split; [reflexivity|].
  split; [apply length_map|].
  intros i rowFormats Hi.
  rewrite list_lookup_fmap, Hi. cbn [fmap option_fmap option_map mbind option_bind].
  eexists. split; [reflexivity|].
  split; [apply length_map|].
  intros j cellFormat Hj. by rewrite list_lookup_fmap, Hj.
Qed.

Lemma prepare_setCellsFormats_shape_witness :
  exists x rows,
    prepare_setCellsFormats (RangeStr "C4:C4") [[py_dict []]; []] (JStr "f") bound7 =
      (queued bound7 x, Return tt) /\
    getitem_path x ["updateCells"; "range"] =
      Return (JDict (<["sheetId" := JInt 7]>
                       (grid_bounds (Some 2) (Some 3) (Some 3) (Some 4)))) /\
    getitem_path x ["updateCells"; "rows"] = Return (JList rows) /\
    List.length rows = List.length [[py_dict []]; []] /\
    forall i rowFormats, [[py_dict []]; []] !! i = Some rowFormats ->
      exists cells,
        (rows !! i) ≫= row_cells = Some cells /\
        List.length cells = List.length rowFormats /\
        forall j cellFormat, rowFormats !! j = Some cellFormat ->
          cells !! j = Some (py_dict [("userEnteredFormat", cellFormat)]).
Proof.
  apply (prepare_setCellsFormats_shape bound7 (RangeStr "C4:C4")
           [[py_dict []]; []] (JStr "f")).
  vm_compute. reflexivity.
Defined.


(** ** Range strings outside the accepted form *)







(** X15.  With a sheet bound, a string with no ":" at all (a single cell
    such as "A1", or the empty string) makes [toGridRange] raise
    [ValueError]: the split yields one token where two are unpacked. *)
Theorem toGridRange_no_separator self s :
  is_None (sheetId self) = false ->
  no_colon s = true ->
  toGridRange self (RangeStr s) = Raise ValueError.
Proof.
  intros Hs Hc. unfold toGridRange. rewrite Hs.
  unfold parse_range, split_cells. by rewrite (split_no_colon s Hc).
Qed.

Lemma toGridRange_no_separator_witness :
  toGridRange bound7 (RangeStr "A1") = Raise ValueError /\
  toGridRange bound7 (RangeStr "") = Raise ValueError.
Proof.
  split.
  - exact (toGridRange_no_separator bound7 "A1" eq_refl eq_refl).
  - exact (toGridRange_no_separator bound7 "" eq_refl eq_refl).
Defined.



(** ** The sheet URL *)

Lemma append_inj_l (p a b : string) : p ++ a = p ++ b -> a = b.
Proof.
  induction p as [|c p IH]; [done|].
  rewrite !append_cons. intros [= H]. by apply IH.
Qed.

Lemma to_int_not_nil n :
  Z.to_int n <> Decimal.Pos Decimal.Nil /\ Z.to_int n <> Decimal.Neg Decimal.Nil.
Proof.
  destruct n as [|p|p]; simpl; split; try discriminate.
  - intros [= H]. by apply (DecimalPos.Unsigned.to_uint_nonnil p).
  - intros [= H]. by apply (DecimalPos.Unsigned.to_uint_nonnil p).
Qed.

(** [str] on integers never maps two integers to one text. *)
Lemma str_of_int_inj n m : str_of_int n = str_of_int m -> n = m.
Proof.
  unfold str_of_int. intros H.
  destruct (to_int_not_nil n) as [Hn1 Hn2], (to_int_not_nil m) as [Hm1 Hm2].
  pose proof (NilZero.isi (Z.to_int n) Hn1 Hn2) as In.
  pose proof (NilZero.isi (Z.to_int m) Hm1 Hm2) as Im.
  rewrite H, Im in In. injection In as E.
  rewrite <- (DecimalZ.of_to n), <- (DecimalZ.of_to m). by rewrite E.
Qed.

Section SheetURLFacts.
Variable repr_container : json -> string.

(** X17.  [getSheetURL] returns a URL exactly when the spreadsheet
    identifier is a string and a sheet identifier is bound.  The missing
    spreadsheet is reported first: with no spreadsheet bound the error is
    [SpreadsheetNotSetError] whether or not a sheet is bound, and
    [SheetNotSetError] is raised only when a spreadsheet is bound and the
    sheet is not. *)
Theorem getSheetURL_defined self :
  ((exists url, getSheetURL repr_container self = Return url) <->
   (exists id, spreadsheetId self = JStr id) /\ is_None (sheetId self) = false) /\
  (getSheetURL repr_container self = Raise SpreadsheetNotSetError <->
   is_None (spreadsheetId self) = true) /\
  (getSheetURL repr_container self = Raise SheetNotSetError <->
   is_None (spreadsheetId self) = false /\ is_None (sheetId self) = true).
Proof.
  unfold getSheetURL.
  destruct (spreadsheetId self) as [| | | id | |] eqn:Hid; cbn [is_None];
    destruct (is_None (sheetId self));
    (split; [split; [intros [url H]; try discriminate; by eauto
                    |intros [[id' H] H']; try discriminate; by eauto]
            |split; split; try discriminate; try done;
             intros [? ?]; discriminate]).
Qed.

(** X18.  For a spreadsheet identifier [id] and an integer sheet
    identifier [n] the URL is
    "https://docs.google.com/spreadsheets/d/" + id + "/edit#gid=" + the
    decimal text of [n], and two sheets of one spreadsheet never share a
    URL. *)
Theorem getSheetURL_sheet_injective self self' id n m :
  spreadsheetId self = JStr id -> spreadsheetId self' = JStr id ->
  sheetId self = JInt n -> sheetId self' = JInt m ->
  getSheetURL repr_container self =
    Return ("https://docs.google.com/spreadsheets/d/" ++ id
            ++ "/edit#gid=" ++ str_of_int n) /\
  (getSheetURL repr_container self = getSheetURL repr_container self' -> n = m).
Proof.
  intros H1 H2 Hn Hm. unfold getSheetURL. rewrite H1, H2, Hn, Hm.
  cbn [is_None py_str]. split; [reflexivity|].
  intros [= H]. apply str_of_int_inj.
  apply (append_inj_l "/edit#gid="), (append_inj_l id). exact H.
Qed.
End SheetURLFacts.

Lemma getSheetURL_defined_witness :
  (exists url, getSheetURL (fun _ => "") bound7 = Return url) /\
  getSheetURL (fun _ => "") init = Raise SpreadsheetNotSetError /\
  getSheetURL (fun _ => "") (set_sheetId JNull bound7) = Raise SheetNotSetError.
Proof.
  split; [|split].
  - apply (proj1 (getSheetURL_defined (fun _ => "") bound7)).
    split; [by exists "doc"|reflexivity].
  - apply (proj1 (proj2 (getSheetURL_defined (fun _ => "") init))). reflexivity.
  - apply (proj2 (proj2 (getSheetURL_defined (fun _ => "")
                           (set_sheetId JNull bound7)))).
    split; reflexivity.
Defined.

Lemma getSheetURL_sheet_injective_witness :
  getSheetURL (fun _ => "") bound7 =
    Return ("https://docs.google.com/spreadsheets/d/" ++ "doc"
            ++ "/edit#gid=" ++ str_of_int 7) /\
  (getSheetURL (fun _ => "") bound7 =
   getSheetURL (fun _ => "") (set_sheetId (JInt 8) bound7) -> 7 = 8).
Proof.
  exact (getSheetURL_sheet_injective (fun _ => "") bound7
           (set_sheetId (JInt 8) bound7) "doc" 7 8
           eq_refl eq_refl eq_refl eq_refl).
Defined.

(** ** Binding to a spreadsheet and sharing it *)

Ltac run_admin :=
  lazy beta iota zeta delta
    [bind lift_self lift_env get raise ret modify of_outcome admin fst snd];
  cbn [set_requests set_valueRanges set_sheetId set_sheetTitle set_spreadsheetId
       set_driveService spreadsheetId sheetId sheetTitle requests valueRanges
       driveService service issued].

(** What the three assignments do with an answer that has everything. *)
Lemma adopt_complete spreadsheet newId first rest newSheetId newTitle self :
  getitem_key spreadsheet "spreadsheetId" = Return newId ->
  getitem_key spreadsheet "sheets" = Return (JList (first :: rest)) ->
  getitem_path first ["properties"; "sheetId"] = Return newSheetId ->
  getitem_path first ["properties"; "title"] = Return newTitle ->
  adopt spreadsheet self =
    (set_sheetTitle newTitle (set_sheetId newSheetId (set_spreadsheetId newId self)),
     Return tt).
Proof.
  intros Hid Hsheets Hsid Htitle. unfold adopt. run_admin.
  rewrite Hid. run_admin. rewrite Hsheets. run_admin.
  change (getitem_idx (JList (first :: rest)) 0) with (Return first). run_admin.
  cbn [getitem_path] in Hsid, Htitle.
  destruct (getitem_key first "properties") as [props|e]; [|discriminate].
  cbn [obind] in Hsid, Htitle.
  destruct (getitem_key props "sheetId") as [x|e]; [|discriminate].
  destruct (getitem_key props "title") as [y|e]; [|discriminate].
  cbn [obind] in Hsid, Htitle. injection Hsid as ->. injection Htitle as ->.
  run_admin. reflexivity.
Qed.

(** [adopt] never reads or writes the queues. *)
Lemma adopt_keeps_queues spreadsheet self :
  requests (adopt spreadsheet self).1 = requests self /\
  valueRanges (adopt spreadsheet self).1 = valueRanges self.
Proof.
  unfold adopt. run_admin.
  repeat (match goal with
          | |- context [getitem_key ?u ?k] => destruct (getitem_key u k)
          | |- context [getitem_idx ?u ?k] => destruct (getitem_idx u k)
          end; run_admin); by split.
Qed.

Section AdminFacts.
Context {R : Type}.
Variable perform : admin_call -> R -> R * outcome json.

(** X19.  When the service answers [setSpreadsheetById] with a
    description that has a spreadsheet identifier and at least one sheet
    with an identifier and a title, the session is bound to the
    identifier found in the answer (not to the argument of the call) and
    to the first sheet; one call is issued; the queues are not touched. *)
Theorem setSpreadsheetById_binds id self e r' spreadsheet
    newId first rest newSheetId newTitle :
  perform (GetSpreadsheet id) (service e) = (r', Return spreadsheet) ->
  getitem_key spreadsheet "spreadsheetId" = Return newId ->
  getitem_key spreadsheet "sheets" = Return (JList (first :: rest)) ->
  getitem_path first ["properties"; "sheetId"] = Return newSheetId ->
  getitem_path first ["properties"; "title"] = Return newTitle ->
  setSpreadsheetById perform id (self, e) =
    (({| spreadsheetId := newId; sheetId := newSheetId; sheetTitle := newTitle;
         requests := requests self; valueRanges := valueRanges self |},
      {| driveService := driveService e; service := r';
         issued := issued e ++ [GetSpreadsheet id] |}),
     Return tt).
Proof.
  intros Hp Hid Hsheets Hsid Htitle. unfold setSpreadsheetById. run_admin.
  rewrite Hp. run_admin.
  by rewrite (adopt_complete _ _ _ _ _ _ self Hid Hsheets Hsid Htitle).
Qed.

(** X20.  [create] sends one call whose body asks for a spreadsheet with
    the given title, locale and time zone and one grid sheet with the
    given title and size; when the service answers with a complete
    description, the session takes its three identifiers from that
    answer and keeps its queues. *)
Theorem create_binds title sheetTitle rows cols locale timeZone self e r'
    spreadsheet newId first rest newSheetId newTitle :
  perform (CreateSpreadsheet (create_body title sheetTitle rows cols locale timeZone))
          (service e) = (r', Return spreadsheet) ->
  getitem_key spreadsheet "spreadsheetId" = Return newId ->
  getitem_key spreadsheet "sheets" = Return (JList (first :: rest)) ->
  getitem_path first ["properties"; "sheetId"] = Return newSheetId ->
  getitem_path first ["properties"; "title"] = Return newTitle ->
  create perform title sheetTitle rows cols locale timeZone (self, e) =
    (({| spreadsheetId := newId; sheetId := newSheetId; sheetTitle := newTitle;
         requests := requests self; valueRanges := valueRanges self |},
      {| driveService := driveService e; service := r';
         issued := issued e ++
           [CreateSpreadsheet
              (create_body title sheetTitle rows cols locale timeZone)] |}),
     Return tt) /\
  getitem_path (create_body title sheetTitle rows cols locale timeZone)
    ["properties"; "title"] = Return title /\
  (let? sheets := getitem_key
                    (create_body title sheetTitle rows cols locale timeZone)
                    "sheets" in
   let? sheet := getitem_idx sheets 0 in
   getitem_path sheet ["properties"; "title"]) = Return sheetTitle.
Proof.
  intros Hp Hid Hsheets Hsid Htitle. split; [|split; reflexivity].
  unfold create. run_admin. rewrite Hp. run_admin.
  by rewrite (adopt_complete _ _ _ _ _ _ self Hid Hsheets Hsid Htitle).
Qed.

(** X21.  When the service rejects the call, [setSpreadsheetById] and
    [create] propagate the exception and leave the session as it was,
    identifiers and queues. *)
Theorem binding_remote_failure c self e r' err :
  perform c (service e) = (r', Raise err) ->
  (forall id, c = GetSpreadsheet id ->
     setSpreadsheetById perform id (self, e) =
       ((self, {| driveService := driveService e; service := r';
                  issued := issued e ++ [c] |}), Raise err)) /\
  (forall title sheetTitle rows cols locale timeZone,
     c = CreateSpreadsheet (create_body title sheetTitle rows cols locale timeZone) ->
     create perform title sheetTitle rows cols locale timeZone (self, e) =
       ((self, {| driveService := driveService e; service := r';
                  issued := issued e ++ [c] |}), Raise err)).
Proof.
  intros Hp. split.
  - intros id ->. unfold setSpreadsheetById. run_admin. by rewrite Hp.
  - intros title sheetTitle rows cols locale timeZone ->.
    unfold create. run_admin. by rewrite Hp.
Qed.

(** X22.  An answer that names the spreadsheet but lists no sheet leaves
    the session half bound: [setSpreadsheetById] raises [IndexError]
    after it has stored the new spreadsheet identifier, so the session
    points at the new spreadsheet with the sheet identifier and title of
    the old one. *)
Theorem setSpreadsheetById_no_sheet id self e r' spreadsheet newId :
  perform (GetSpreadsheet id) (service e) = (r', Return spreadsheet) ->
  getitem_key spreadsheet "spreadsheetId" = Return newId ->
  getitem_key spreadsheet "sheets" = Return (JList []) ->
  setSpreadsheetById perform id (self, e) =
    ((set_spreadsheetId newId self,
      {| driveService := driveService e; service := r';
         issued := issued e ++ [GetSpreadsheet id] |}),
     Raise IndexError).
Proof.
  intros Hp Hid Hsheets. unfold setSpreadsheetById. run_admin.
  rewrite Hp. run_admin. unfold adopt. run_admin.
  rewrite Hid. run_admin. rewrite Hsheets. run_admin. reflexivity.
Qed.

(** X23.  Neither [setSpreadsheetById] nor [create] flushes or clears
    anything: whatever the service answers, the requests and value writes
    queued before the call are still queued after it, so the next
    [runPrepared] sends them to whichever spreadsheet is bound then. *)
Theorem binding_keeps_queues self e :
  (forall id,
     requests (setSpreadsheetById perform id (self, e)).1.1 = requests self /\
     valueRanges (setSpreadsheetById perform id (self, e)).1.1 = valueRanges self) /\
  (forall title sheetTitle rows cols locale timeZone,
     requests (create perform title sheetTitle rows cols locale timeZone
                 (self, e)).1.1 = requests self /\
     valueRanges (create perform title sheetTitle rows cols locale timeZone
                    (self, e)).1.1 = valueRanges self).
Proof.
  split.
  - intros id. unfold setSpreadsheetById. run_admin.
    destruct (perform _ (service e)) as [r' [spreadsheet|err]]; run_admin;
      [|by split].
    pose proof (adopt_keeps_queues spreadsheet self) as H.
    by destruct (adopt spreadsheet self).
  - intros title sheetTitle rows cols locale timeZone. unfold create. run_admin.
    destruct (perform _ (service e)) as [r' [spreadsheet|err]]; run_admin;
      [|by split].
    pose proof (adopt_keeps_queues spreadsheet self) as H.
    by destruct (adopt spreadsheet self).
Qed.

(** X24.  [share] with no spreadsheet bound raises
    [SpreadsheetNotSetError] at once: the Drive service is not built and
    no call is issued. *)
Theorem share_unbound body self e :
  is_None (spreadsheetId self) = true ->
  share perform body (self, e) = ((self, e), Raise SpreadsheetNotSetError).
Proof.
  intros H. unfold share. run_admin. rewrite H. by destruct e.
Qed.

(** X25.  [share] builds the Drive service lazily and at most once.
    With a spreadsheet bound: if the service object exists, the only call
    is the permission request for the bound spreadsheet; if it does not,
    it is built first, and when the build fails nothing else is sent and
    the next [share] will try the build again, whereas once the build has
    succeeded the object is kept even if the permission request then
    fails.  The session itself is never changed. *)
Theorem share_lazy_build body self e :
  is_None (spreadsheetId self) = false ->
  let grant := CreatePermission (spreadsheetId self) body "id" in
  let finish (o : outcome json) : outcome unit :=
    match o with Return _ => Return tt | Raise err => Raise err end in
  if driveService e
  then exists r1 o1,
         perform grant (service e) = (r1, o1) /\
         share perform body (self, e) =
           ((self, {| driveService := true; service := r1;
                      issued := issued e ++ [grant] |}), finish o1)
  else exists r0 o0,
         perform BuildDrive (service e) = (r0, o0) /\
         match o0 with
         | Raise err =>
             share perform body (self, e) =
               ((self, {| driveService := false; service := r0;
                          issued := issued e ++ [BuildDrive] |}), Raise err)
         | Return _ =>
             exists r1 o1,
               perform grant r0 = (r1, o1) /\
               share perform body (self, e) =
                 ((self, {| driveService := true; service := r1;
                            issued := issued e ++ [BuildDrive; grant] |}),
                  finish o1)
         end.
Proof.
  intros H grant finish. unfold share. run_admin. rewrite H.
  destruct (driveService e) eqn:Hd; run_admin.
  - destruct (perform grant (service e)) as [r1 o1] eqn:E1.
    exists r1, o1. split; [reflexivity|]. unfold grant in E1. rewrite E1.
    rewrite Hd. by destruct o1.
  - destruct (perform BuildDrive (service e)) as [r0 [v0|err]] eqn:E0;
      exists r0; eexists; (split; [reflexivity|]); run_admin.
    + destruct (perform grant r0) as [r1 o1] eqn:E1.
      exists r1, o1. split; [reflexivity|]. unfold grant in E1. rewrite E1.
      rewrite <- app_assoc. by destruct o1.
    + by rewrite Hd.
Qed.
End AdminFacts.

Lemma setSpreadsheetById_binds_witness :
  setSpreadsheetById sample_admin (JStr "other") (both_queued, env0) =
    (({| spreadsheetId := JStr "other"; sheetId := JInt 0;
         sheetTitle := JStr "Sheet1";
         requests := requests both_queued;
         valueRanges := valueRanges both_queued |},
      {| driveService := driveService env0; service := 0;
         issued := issued env0 ++ [GetSpreadsheet (JStr "other")] |}),
     Return tt).
Proof.
  eapply (setSpreadsheetById_binds sample_admin (JStr "other") both_queued env0).
  - reflexivity.
  - reflexivity.
  - reflexivity.
  - reflexivity.
  - reflexivity.
Defined.

Lemma create_binds_witness :
  create sample_admin (JStr "Report") (JStr "Data") (JInt 1000) (JInt 26)
      (JStr "en_US") (JStr "Etc/GMT") (init, env0) =
    (({| spreadsheetId := JStr "created"; sheetId := JInt 0;
         sheetTitle := JStr "Sheet1";
         requests := requests init; valueRanges := valueRanges init |},
      {| driveService := driveService env0; service := 1;
         issued := issued env0 ++
           [CreateSpreadsheet
              (create_body (JStr "Report") (JStr "Data") (JInt 1000) (JInt 26)
                 (JStr "en_US") (JStr "Etc/GMT"))] |}),
     Return tt) /\
  getitem_path (create_body (JStr "Report") (JStr "Data") (JInt 1000) (JInt 26)
                  (JStr "en_US") (JStr "Etc/GMT"))
    ["properties"; "title"] = Return (JStr "Report") /\
  (let? sheets := getitem_key
                    (create_body (JStr "Report") (JStr "Data") (JInt 1000)
                       (JInt 26) (JStr "en_US") (JStr "Etc/GMT"))
                    "sheets" in
   let? sheet := getitem_idx sheets 0 in
   getitem_path sheet ["properties"; "title"]) = Return (JStr "Data").
Proof.
  eapply (create_binds sample_admin (JStr "Report") (JStr "Data") (JInt 1000)
            (JInt 26) (JStr "en_US") (JStr "Etc/GMT") init env0).
  - reflexivity.
  - reflexivity.
  - reflexivity.
  - reflexivity.
  - reflexivity.
Defined.

Lemma binding_remote_failure_witness :
  setSpreadsheetById rejecting_admin (JStr "other") (bound7, unit_env) =
    ((bound7, {| driveService := driveService unit_env; service := tt;
                 issued := issued unit_env ++ [GetSpreadsheet (JStr "other")] |}),
     Raise (RemoteError "404")).
Proof.
  apply (proj1 (binding_remote_failure rejecting_admin
                  (GetSpreadsheet (JStr "other")) bound7 unit_env tt
                  (RemoteError "404") eq_refl)).
  reflexivity.
Defined.

Lemma setSpreadsheetById_no_sheet_witness :
  setSpreadsheetById sheetless_admin (JStr "empty") (bound7, unit_env) =
    ((set_spreadsheetId (JStr "empty") bound7,
      {| driveService := driveService unit_env; service := tt;
         issued := issued unit_env ++ [GetSpreadsheet (JStr "empty")] |}),
     Raise IndexError).
Proof.
  eapply (setSpreadsheetById_no_sheet sheetless_admin (JStr "empty") bound7 unit_env).
  - reflexivity.
  - reflexivity.
  - reflexivity.
Defined.

Lemma share_unbound_witness :
  share sample_admin (py_dict [("type", JStr "anyone"); ("role", JStr "reader")])
      (init, env0) =
    ((init, env0), Raise SpreadsheetNotSetError).
Proof.
  exact (share_unbound sample_admin _ init env0 eq_refl).
Defined.

Lemma share_lazy_build_witness :
  (exists r0 o0,
     driveless_admin BuildDrive (service unit_env) = (r0, o0) /\
     match o0 with
     | Raise err =>
         share driveless_admin (py_dict []) (bound7, unit_env) =
           ((bound7, {| driveService := false; service := r0;
                        issued := issued unit_env ++ [BuildDrive] |}), Raise err)
     | Return _ =>
         exists r1 o1,
           driveless_admin (CreatePermission (spreadsheetId bound7) (py_dict []) "id") r0
             = (r1, o1) /\
           share driveless_admin (py_dict []) (bound7, unit_env) =
             ((bound7, {| driveService := true; service := r1;
                          issued := issued unit_env ++
                            [BuildDrive;
                             CreatePermission (spreadsheetId bound7) (py_dict []) "id"] |}),
              match o1 with Return _ => Return tt | Raise err => Raise err end)
     end).
Proof.
  exact (share_lazy_build driveless_admin (py_dict []) bound7 unit_env eq_refl).
Defined.

(** ** Queue a value write, then flush *)

(** What [prepare_setValues] does, as an equation. *)
Lemma prepare_setValues_frame self cellsRange values majorDimension :
  (is_None (sheetTitle self) = true ->
   prepare_setValues cellsRange values majorDimension self =
     (self, Raise SheetNotSetError)) /\
  (forall title, sheetTitle self = JStr title ->
   exists entry,
     prepare_setValues cellsRange values majorDimension self =
       (set_valueRanges (valueRanges self ++ [entry]) self, Return tt) /\
     getitem_key entry "range" = Return (JStr (title ++ "!" ++ cellsRange)) /\
     getitem_key entry "values" = Return values).
Proof.
  unfold prepare_setValues, bind, get, raise, append_valueRange, modify.
  split.
  - intros H. by rewrite H.
  - intros title H. rewrite H. cbn [is_None].
    eexists. split; [reflexivity|]. split; reflexivity.
Qed.

(** X26.  From a session bound to a spreadsheet and to a sheet titled
    [t], with both queues empty, [prepare_setValues] followed by
    [runPrepared] issues exactly one call, the value batch for the bound
    spreadsheet with the given input option, whose data is the single
    write addressed to [t], "!" and the given range; the structural
    replies are the empty list, and the session is back in the state it
    started from whether the service answers or raises. *)
Theorem setValues_then_flush {R : Type} (execute : call -> R -> R * outcome json)
    cellsRange values majorDimension valueInputOption self w t :
  is_None (spreadsheetId self) = false ->
  sheetTitle self = JStr t ->
  requests self = [] -> valueRanges self = [] ->
  exists entry r' o,
    getitem_key entry "range" = Return (JStr (t ++ "!" ++ cellsRange)) /\
    getitem_key entry "values" = Return values /\
    execute (ValuesBatchUpdate (spreadsheetId self)
               (py_dict [("valueInputOption", valueInputOption);
                         ("data", JList [entry])]))
            (remote w) = (r', o) /\
    (do! lift_self (prepare_setValues cellsRange values majorDimension) in
     runPrepared execute valueInputOption) (self, w) =
      ((self,
        {| remote := r';
           calls := calls w ++
             [ValuesBatchUpdate (spreadsheetId self)
                (py_dict [("valueInputOption", valueInputOption);
                          ("data", JList [entry])])] |}),
       match o with
       | Return resp =>
           let? v := getitem_key resp "responses" in Return (JList [], v)
       | Raise e => Raise e
       end).
Proof.
  intros H Ht Hq Hv.
  destruct (proj2 (prepare_setValues_frame self cellsRange values majorDimension)
              t Ht) as (entry & Hprep & Hrange & Hvalues).
  set (s1 := set_valueRanges (valueRanges self ++ [entry]) self) in *.
  assert (Hs1 : is_None (spreadsheetId s1) = false) by exact H.
  assert (Hq1 : requests s1 = []) by exact Hq.
  assert (Hv1 : valueRanges s1 <> []).
  { unfold s1. cbn [set_valueRanges valueRanges]. rewrite Hv. discriminate. }
  destruct (runPrepared_values_call execute valueInputOption s1 w Hs1 Hq1 Hv1)
    as (r' & o & Hcall & Hrun).
  assert (Hdata : valueRanges s1 = [entry]).
  { unfold s1. cbn [set_valueRanges valueRanges]. by rewrite Hv. }
  unfold values_call in Hcall, Hrun. rewrite Hdata in Hcall, Hrun.
  exists entry, r', o. split; [exact Hrange|]. split; [exact Hvalues|].
  split; [exact Hcall|].
  unfold bind at 1. unfold lift_self. cbn [fst snd]. rewrite Hprep.
  cbn [fst snd]. fold s1. rewrite Hrun.
  replace (clear_queues s1) with self; [reflexivity|].
  unfold s1. destruct self; simpl in *; by subst.
Qed.

Lemma setValues_then_flush_witness :
  exists entry r' o,
    getitem_key entry "range" = Return (JStr ("Sheet1" ++ "!" ++ "A1:A1")) /\
    getitem_key entry "values" = Return (JList [JList [JStr "x"]]) /\
    sample_service
      (ValuesBatchUpdate (spreadsheetId bound7)
         (py_dict [("valueInputOption", JStr "USER_ENTERED");
                   ("data", JList [entry])]))
      (remote world0) = (r', o) /\
    (do! lift_self (prepare_setValues "A1:A1" (JList [JList [JStr "x"]]) (JStr "ROWS")) in
     runPrepared sample_service (JStr "USER_ENTERED")) (bound7, world0) =
      ((bound7,
        {| remote := r';
           calls := calls world0 ++
             [ValuesBatchUpdate (spreadsheetId bound7)
                (py_dict [("valueInputOption", JStr "USER_ENTERED");
                          ("data", JList [entry])])] |}),
       match o with
       | Return resp =>
           let? v := getitem_key resp "responses" in Return (JList [], v)
       | Raise e => Raise e
       end).
Proof.
  exact (setValues_then_flush sample_service "A1:A1" (JList [JList [JStr "x"]])
           (JStr "ROWS") (JStr "USER_ENTERED") bound7 world0 "Sheet1"
           eq_refl eq_refl eq_refl eq_refl).
Defined.
